(** * webext-messenger: the caller (sender.ts) and the receiver
      (onMessageListener, registerMethods) as a shallow embedding.

    JavaScript values are an inductive type whose objects are finite maps
    from property names to values; a call that talks to the host runs in a
    small state monad over the chronological list of observable events
    (log lines, messages handed to the host bus, liveness queries).  A
    promise is represented by the way it settles. *)

From stdpp Require Import gmap strings list fin_maps pretty.
From Stdlib Require Import ZArith.

#[local] Set Warnings "-register-all".

(* ===================================================================== *)
(** ** JavaScript values *)
(* ===================================================================== *)

(** The error classes the module meets: [Error] (what the host rejects
    with and what [new Error(..)] builds), [MessengerError] (from
    shared.js, tested with [instanceof]), and the engine's [TypeError] and
    [ReferenceError]. *)
Inductive err_class := EError | EMessengerError | ETypeError | EReferenceError.

Record js_error := mkError { err_cls : err_class; err_message : string }.

(** Numbers are restricted to integers (tab and frame identifiers). *)
Inductive value :=
| VUndefined
| VNull
| VBool (b : bool)
| VNum (z : Z)
| VStr (s : string)
| VArr (l : list value)
| VObj (o : gmap string value)
| VErr (e : js_error).

(** A promise, by its outcome. *)
Inductive settled :=
| Fulfilled (v : value)
| Rejected (e : value).

(** What calling a function that is not [async] does: it returns a plain
    value ([void] is [RetValue VUndefined]), returns a promise, or throws. *)
Inductive completion :=
| RetValue (v : value)
| RetPromise (p : settled)
| Thrown (e : value).

(** A registered method: [method.apply(meta, args)]. *)
Abbreviation Method := (value -> list value -> completion).

(** [v[k]] for the property names the module reads; none of them lives on
    a prototype, so own properties are the whole story.  An Error object
    exposes its [message]. *)
Definition get (v : value) (k : string) : value :=
  match v with
  | VObj o => default VUndefined (o !! k)
  | VErr e => if String.eqb k "message" then VStr (err_message e) else VUndefined
  | _ => VUndefined
  end.

(** [String(v)] on primitives, the only operands it meets here. *)
Definition primitive_to_string (v : value) : string :=
  match v with
  | VUndefined => "undefined"
  | VNull => "null"
  | VBool true => "true"
  | VBool false => "false"
  | VNum z => pretty z
  | VStr s => s
  | _ => "[object Object]"
  end.

(** [k in v]: a TypeError when [v] is not an object (V8's wording). *)
Definition in_operator (k : string) (v : value) : bool + js_error :=
  match v with
  | VObj o => inl (bool_decide (is_Some (o !! k)))
  | VArr _ => inl false
  | VErr _ => inl (String.eqb k "message")
  | _ => inr (mkError ETypeError
                ("Cannot use 'in' operator to search for '" +:+ k +:+ "' in "
                   +:+ primitive_to_string v))
  end.

(** JavaScript truthiness. *)
Definition truthy (v : value) : bool :=
  match v with
  | VUndefined | VNull => false
  | VBool b => b
  | VNum z => negb (z =? 0)%Z
  | VStr s => negb (String.eqb s "")
  | VArr _ | VObj _ | VErr _ => true
  end.

(** [v === true] *)
Definition is_true_value (v : value) : bool :=
  match v with VBool true => true | _ => false end.

(** [v === s] for a string literal [s] *)
Definition is_string_value (v : value) (s : string) : bool :=
  match v with VStr t => String.eqb t s | _ => false end.

(** The string a value is once [typeof v === "string"] has been checked. *)
Definition as_string (v : value) : string :=
  match v with VStr s => s | _ => "" end.

(** The elements of a value once [Array.isArray(v)] has been checked. *)
Definition as_array (v : value) : list value :=
  match v with VArr l => l | _ => [] end.

(** [typeof v === "number"] *)
Definition is_number (v : value) : bool :=
  match v with VNum _ => true | _ => false end.

(** [async () => f(...)]: the promise an async wrapper around a call makes. *)
Definition async_call (c : completion) : settled :=
  match c with
  | RetValue v => Fulfilled v
  | RetPromise p => p
  | Thrown e => Rejected e
  end.

(* ===================================================================== *)
(** ** Observable events and the monad of host interaction *)
(* ===================================================================== *)

Inductive log_level := Debug | Warn.

(** A log line keeps its level and its string arguments in order; the
    other arguments and the pictographs are left out. *)
Inductive event :=
| Log (lvl : log_level) (parts : list string)
| RuntimeSend (message : value)
| TabsSend (tabId : value) (message : value) (options : value)
| TabExistsQuery (tabId : value).

Definition trace := list event.

Definition M (A : Type) : Type := trace -> A * trace.

Definition ret {A} (a : A) : M A := fun tr => (a, tr).

Definition bind {A B} (m : M A) (k : A -> M B) : M B :=
  fun tr => let (a, tr') := m tr in k a tr'.

Definition emit (e : event) : M unit := fun tr => (tt, tr ++ [e]).

Declare Scope js_scope.
Delimit Scope js_scope with js.
Notation "x <- m ;; k" := (bind m (fun x => k))
  (at level 100, m at next level, right associativity) : js_scope.
Notation "m ;;; k" := (bind m (fun _ => k))
  (at level 100, right associativity) : js_scope.
#[local] Open Scope js_scope.

(** What the host's one-shot delivery primitive gives back: the reply of
    the listener that answered ([undefined] when none did), or a rejection,
    which the host makes with an [Error] carrying a message. *)
Inductive delivery :=
| Answered (response : value)
| Failed (message : string).

(** Everything a context reaches through globals and imports.  The host's
    answers may depend on all that happened before, so they are functions
    of the trace so far. *)
Record Env := {
  browser_in_globalThis : bool;      (* "browser" in globalThis *)
  browser_tabs : bool;               (* browser.tabs is defined *)
  isBackground : bool;               (* webext-detect-page *)
  runtime_sendMessage : trace -> value -> delivery;
  tabs_sendMessage : trace -> value -> value -> value -> delivery;
  doesTabExist : trace -> value -> bool;           (* webext-tools *)
  retries_in_time : nat;  (* retries that fit under maxRetryTime in this run *)
  JSON_stringify : value -> string;
  serializeError : value -> value;                 (* serialize-error *)
  deserializeError : value -> value;
}.

Definition sendToRuntime (E : Env) (message : value) : M delivery :=
  fun tr => (runtime_sendMessage E tr message, tr ++ [RuntimeSend message]).

Definition sendToTab (E : Env) (tabId message options : value) : M delivery :=
  fun tr => (tabs_sendMessage E tr tabId message options,
             tr ++ [TabsSend tabId message options]).

Definition queryTabExists (E : Env) (tabId : value) : M bool :=
  fun tr => (doesTabExist E tr tabId, tr ++ [TabExistsQuery tabId]).

(** Events that reach the host bus, as opposed to log lines and queries. *)
Definition is_send (e : event) : bool :=
  match e with RuntimeSend _ | TabsSend _ _ _ => true | _ => false end.

Definition is_log (e : event) : bool :=
  match e with Log _ _ => true | _ => false end.

(** [carries message e]: if [e] hands a message to the bus, it is [message]. *)
Definition carries (message : value) (e : event) : Prop :=
  match e with
  | RuntimeSend m | TabsSend _ m _ => m = message
  | _ => True
  end.

(** A computation that only appends events, all of them satisfying [P]. *)
Definition appends {A} (P : event -> Prop) (m : M A) : Prop :=
  forall tr, exists evs, snd (m tr) = tr ++ evs /\ Forall P evs.

(* ===================================================================== *)
(** ** shared.js *)
(* ===================================================================== *)

Module Shared.

(** Modelled from the spec: shared.js is not among the sources.  [isObject]
    is the usual guard for a non-null value of type object, which arrays
    and Error instances also pass. *)
Definition isObject (v : value) : bool :=
  match v with VArr _ | VObj _ | VErr _ => true | _ => false end.

(** Modelled from the spec: both tag constants are exported by shared.js,
    which is not among the sources; the wire format has [protocolTag: true]
    (spec, section 6). *)
Definition __webextMessenger : value := VBool true.
Definition __webext_messenger__ : value := VBool true.

(** [new MessengerError(message)] and [new Error(message)] *)
Definition MessengerError (message : string) : js_error :=
  mkError EMessengerError message.
Definition Error (message : string) : js_error :=
  mkError EError message.

(** [error instanceof MessengerError] *)
Definition instanceof_MessengerError (error : js_error) : bool :=
  match err_cls error with EMessengerError => true | _ => false end.

Definition debug (parts : list string) : M unit := emit (Log Debug parts).
Definition warn (parts : list string) : M unit := emit (Log Warn parts).

End Shared.
Import Shared.

(* ===================================================================== *)
(** ** p-retry *)
(* ===================================================================== *)

Module PRetry.

(** The retry driver of the p-retry package, as sender.ts relies on it.
    [input] is run with the attempt number, starting where the caller says;
    its value resolves the promise.  A thrown TypeError rejects at once (the
    package retries a TypeError only for the network messages of fetch,
    which no error of this module carries).  Any other error goes to
    [onFailedAttempt]: if that throws, the promise rejects with what it
    threw and nothing is retried; if it returns, the input is retried while
    the budget lasts, and once the budget is spent the last failure is the
    promise's rejection (spec, section 4.2, rule 5; the package is not
    among the sources, and where the failures of one call differ it may
    report another of them).  Delays are not represented: the budget is
    the number of retries left. *)
Fixpoint pRetry (retriesLeft : nat)
    (input : nat -> M (value + js_error))
    (onFailedAttempt : js_error -> M (option js_error))
    (attemptNumber : nat) : M (value + js_error) :=
  (r <- input attemptNumber ;;
   match r with
   | inl v => ret (inl v)
   | inr error =>
       match err_cls error with
       | ETypeError => ret (inr error)
       | _ =>
           thrown <- onFailedAttempt error ;;
           match thrown with
           | Some e => ret (inr e)
           | None =>
               match retriesLeft with
               | O => ret (inr error)
               | S n => pRetry n input onFailedAttempt (S attemptNumber)
               end
           end
       end
   end)%js.

(** The package's default for [retries]. *)
Definition default_retries : nat := 10.

End PRetry.
Import PRetry.

(* ===================================================================== *)
(** ** sender.ts *)
(* ===================================================================== *)

Module Sender.

Definition _errorNonExistingTarget : string :=
  "Could not establish connection. Receiving end does not exist.".

Definition _errorTargetClosedEarly : string :=
  "A listener indicated an asynchronous response by returning true, but the message channel closed before a response was received".

Definition errorTargetClosedEarly : string :=
  "The target was closed before receiving a response".

Definition errorTabDoesntExist : string := "The tab doesn't exist".

(** Modelled from the spec: types.js is not among the sources; the options
    of a call are [{ isNotification?: boolean }] (spec, section 6). *)
Record Options := mkOptions { isNotification : option bool }.

Definition options_value (options : Options) : value :=
  VObj (match isNotification options with
        | Some b => {[ "isNotification" := VBool b ]}
        | None => ∅
        end).

(** The literal [{}] that [getMethod] binds. *)
Definition emptyOptions : Options := mkOptions None.

Definition isMessengerResponse (response : value) : bool :=
  isObject response && is_true_value (get response "__webextMessenger").

Definition attemptLog (attemptCount : nat) : string :=
  if (1 <? attemptCount)%nat then "(try: " +:+ pretty attemptCount +:+ ")" else "".

Definition makeMessage (type : string) (args : list value) (target : value)
    (options : Options) : value :=
  VObj (list_to_map
          [ ("__webextMessenger", __webextMessenger);
            ("type", VStr type);
            ("args", VArr args);
            ("target", target);
            ("options", options_value options) ]).

Section WithEnv.
Context (E : Env).

Definition targetNotFound (type : string) (target : value) : js_error :=
  MessengerError
    ("The target " +:+ JSON_stringify E target +:+ " for " +:+ type
       +:+ " was not found").

Definition messengerNotAvailable (type : string) (target : value) : js_error :=
  MessengerError
    ("Messenger was not available in the target " +:+ JSON_stringify E target
       +:+ " for " +:+ type).

Definition thirdPartyConflict (type : string) : js_error :=
  MessengerError
    ("Conflict: The message " +:+ type +:+ " was handled by a third-party listener").

(** The body of the function handed to [pRetry], after its [await]:
    [inl] is its return value, [inr] what it throws. *)
Definition classifyResponse (type : string) (target : value)
    (response : value) : value + js_error :=
  if isMessengerResponse response then inl response
  else
    match response with
    | VUndefined =>
        match in_operator "page" target with
        | inr e => inr e
        | inl true => inr (targetNotFound type target)
        | inl false => inr (messengerNotAvailable type target)
        end
    | _ => inr (thirdPartyConflict type)
    end.

Definition attempt (type : string) (target : value)
    (sendMessage : nat -> M delivery) (attemptCount : nat)
  : M (value + js_error) :=
  d <- sendMessage attemptCount ;;
  ret match d with
      | Failed message => inr (Error message)
      | Answered response => classifyResponse type target response
      end.

(** The condition under which [onFailedAttempt] lets p-retry go on. *)
Definition mayRetry (target : value) (error : js_error) : bool :=
  (negb (is_string_value (get target "page") "background")
     && instanceof_MessengerError error)
  || String.eqb (err_message error) _errorNonExistingTarget
  || String.prefix "No handlers registered in " (err_message error).

(** [Some e]: the callback throws [e]; [None]: it returns and the attempt
    is retried. *)
Definition onFailedAttempt (target : value) (error : js_error)
  : M (option js_error) :=
  if String.eqb (err_message error) _errorTargetClosedEarly then
    ret (Some (Error errorTargetClosedEarly))
  else if mayRetry target error then
    if browser_tabs E && is_number (get target "tabId") then
      tabExists <- queryTabExists E (get target "tabId") ;;
      ret (if negb tabExists then Some (Error errorTabDoesntExist) else None)
    else ret None
  else ret (Some error).

(** [pRetry(...).catch(...)]: the promise that [manageMessage] awaits. *)
Definition retrying (type : string) (target : value)
    (sendMessage : nat -> M delivery) : M (value + js_error) :=
  r <- pRetry (Nat.min default_retries (retries_in_time E))
         (attempt type target sendMessage) (onFailedAttempt target) 1 ;;
  ret match r with
      | inr error =>
          if String.eqb (err_message error) _errorNonExistingTarget
          then inr (targetNotFound type target)
          else inr error
      | inl response => inl response
      end.

Definition manageMessage (type : string) (target : value)
    (sendMessage : nat -> M delivery) : M settled :=
  r <- retrying type target sendMessage ;;
  match r with
  | inr error => ret (Rejected (VErr error))
  | inl response =>
      match in_operator "error" response with
      | inr e => ret (Rejected (VErr e))
      | inl true =>
          debug [type; "replied with error"] ;;;
          ret (Rejected (deserializeError E (get response "error")))
      | inl false =>
          debug [type; "replied successfully"] ;;;
          ret (Fulfilled (get response "value"))
      end
  end.

Definition manageConnection (type : string) (options : Options)
    (target : value) (sendMessage : nat -> M delivery) : M completion :=
  if negb (default false (isNotification options)) then
    p <- manageMessage type target sendMessage ;;
    ret (RetPromise p)
  else
    d <- sendMessage 1 ;;
    match d with
    | Failed _ => debug [type; "notification failed"]
    | Answered _ => ret tt
    end ;;;
    ret (RetValue VUndefined).

Definition sendMessageToRuntime (type : string) (args : list value)
    (target : value) (options : Options) (attemptCount : nat) : M delivery :=
  debug [type; "sending message to runtime"; attemptLog attemptCount] ;;;
  sendToRuntime E (makeMessage type args target options).

Definition sendMessageToTab (type : string) (args : list value)
    (target : value) (options : Options) (tabId frameId : value)
    (attemptCount : nat) : M delivery :=
  debug [type; "sending message to tab"; "frame"; attemptLog attemptCount] ;;;
  sendToTab E tabId (makeMessage type args target options)
    (VObj {[ "frameId" := frameId ]}).

(** [handlers] is the registry of the calling context.  A target without
    [page] makes the function read [browser.tabs] before anything is sent:
    where the [browser] global does not exist, that is a ReferenceError
    thrown at the caller (V8's and SpiderMonkey's wording). *)
Definition messenger (handlers : gmap string Method) (type : string)
    (options : Options) (target : value) (args : list value) : M completion :=
  match in_operator "page" target with
  | inr e => ret (Thrown (VErr e))
  | inl true =>
      if is_string_value (get target "page") "background" && isBackground E then
        match handlers !! type with
        | Some handler =>
            warn [type; "is being handled locally"] ;;;
            ret (handler (VObj {[ "trace" := VArr [] ]}) args)
        | None =>
            ret (Thrown (VErr (MessengerError
                                 ("No handler registered locally for " +:+ type))))
        end
      else
        manageConnection type options target
          (sendMessageToRuntime type args target options)
  | inl false =>
      if negb (browser_in_globalThis E) then
        ret (Thrown (VErr (mkError EReferenceError "browser is not defined")))
      else if negb (browser_tabs E) then
        manageConnection type options target
          (sendMessageToRuntime type args target options)
      else
        let tabId := get target "tabId" in
        let frameId := match get target "frameId" with
                       | VUndefined => VNum 0
                       | v => v
                       end in
        manageConnection type options target
          (sendMessageToTab type args target options tabId frameId)
  end.

(** [messenger.bind(undefined, type, options)] applied to its remaining
    arguments, the first of which is the target. *)
Definition bound_without_target (handlers : gmap string Method)
    (type : string) (options : Options) (rest : list value) : M completion :=
  match rest with
  | [] => messenger handlers type options VUndefined []
  | target :: args => messenger handlers type options target args
  end.

(** [target] is [None] when [arguments.length === 1]. *)
Definition getMethod (handlers : gmap string Method) (type : string)
    (target : option value) : list value -> M completion :=
  match target with
  | None => bound_without_target handlers type emptyOptions
  | Some target => messenger handlers type emptyOptions target
  end.

Definition getNotifier (handlers : gmap string Method) (type : string)
    (target : option value) : list value -> M completion :=
  let options := mkOptions (Some true) in
  match target with
  | None => bound_without_target handlers type options
  | Some target => messenger handlers type options target
  end.

(** Modelled from the spec: the receiver imports [getContentScriptMethod]
    from sender.js, which does not define it.  The forward case issues a new
    outbound call to the target with the same method and arguments and
    awaits its result or error (spec, section 4.3); the binder of sender.ts
    that is given the method alone and called with the target first is
    [getMethod(type)], that is [messenger.bind(undefined, type, {})]. *)
Definition getContentScriptMethod (handlers : gmap string Method)
    (type : string) : value -> list value -> M completion :=
  fun target args => getMethod handlers type None (target :: args).

End WithEnv.

Definition backgroundTarget : value := VObj {[ "page" := VStr "background" ]}.

End Sender.
Import Sender.

(* ===================================================================== *)
(** ** The receiver: isMessengerMessage, onMessageListener, registerMethods *)
(* ===================================================================== *)

Module Receiver.

Definition isMessengerMessage (message : value) : bool :=
  isObject message
  && match get message "type" with VStr _ => true | _ => false end
  && is_true_value (get message "__webext_messenger__")
  && match get message "args" with VArr _ => true | _ => false end.

Definition console_debug (parts : list string) : M unit := emit (Log Debug parts).
Definition console_warn (parts : list string) : M unit := emit (Log Warn parts).

(** One context's share of the module state: the handler registry and
    whether [onMessageListener] is among the host's listeners. *)
Record Context := mkContext {
  handlers : gmap string Method;
  listening : bool;
}.

Section WithEnv.
Context (E : Env).

(** [{ value }] or [{ error: serializeError(error) }] *)
Definition wireBody (p : settled) : gmap string value :=
  match p with
  | Fulfilled v => {[ "value" := v ]}
  | Rejected error => {[ "error" := serializeError E error ]}
  end.

(** The two [then] steps after [handleMessage()]. *)
Definition respond (type : string) (p : settled) : M completion :=
  console_debug ["Messenger:"; type; "responding"] ;;;
  ret (RetPromise
         (Fulfilled
            (VObj (<["__webext_messenger__" := __webext_messenger__]>
                     (wireBody p))))).

Definition wrongContext (type : string) (target : value) : js_error :=
  MessengerError
    ("Message " +:+ type +:+ " sent to wrong context, it can't be forwarded to "
       +:+ JSON_stringify E target).

(** [getContentScriptMethod] is what the receiver imports under that name;
    [registry] is the handler registry of the receiving context. *)
Definition onMessageListener
    (getContentScriptMethod : string -> value -> list value -> M completion)
    (registry : gmap string Method) (message sender : value) : M completion :=
  if negb (isMessengerMessage message) then ret (RetValue VUndefined)
  else
    let type := as_string (get message "type") in
    let target := get message "target" in
    let args := as_array (get message "args") in
    console_debug ["Messenger:"; type; "received"] ;;;
    if truthy target then
      if negb (browser_tabs E) then
        ret (Thrown (VErr (wrongContext type target)))
      else
        console_debug ["Messenger:"; type; "forwarded"] ;;;
        c <- getContentScriptMethod type target args ;;
        respond type (async_call c)
    else
      match registry !! type with
      | None =>
          console_warn ["Messenger:"; type; "ignored, can't be handled here"] ;;;
          ret (RetValue VUndefined)
      | Some localHandler =>
          console_debug ["Messenger:"; type; "will be handled here"] ;;;
          respond type
            (async_call (localHandler (VObj {[ "trace" := VArr [sender] ]}) args))
      end.

(** The [for] loop over [Object.entries(methods)]: [Some e] when it throws
    [e]; the registry comes back as the loop left it. *)
Fixpoint registerEach (entries : list (string * Method))
    (registry : gmap string Method)
  : M (option js_error * gmap string Method) :=
  match entries with
  | [] => ret (None, registry)
  | (type, method) :: rest =>
      if bool_decide (is_Some (registry !! type)) then
        ret (Some (MessengerError ("Handler already set for " +:+ type)), registry)
      else
        console_debug ["Messenger: Registered"; type] ;;;
        registerEach rest (<[type := method]> registry)
  end.

Definition registerMethods (ctx : Context) (methods : list (string * Method))
  : M (completion * Context) :=
  r <- registerEach methods (handlers ctx) ;;
  ret match r with
      | (Some e, registry) =>
          (Thrown (VErr e), mkContext registry (listening ctx))
      | (None, registry) =>
          if browser_in_globalThis E then
            (RetValue VUndefined, mkContext registry true)
          else
            (Thrown (VErr (Error "`webext-messenger` requires `webextension")),
             mkContext registry (listening ctx))
      end.

End WithEnv.

End Receiver.
Import Receiver.

(* ===================================================================== *)
(** ** The peer of the caller, and concrete contexts *)
(* ===================================================================== *)

Module Peer.





End Peer.
Import Peer.

Module Scenarios.

(** A context whose host never answers and in which every tab exists. *)
Definition silentEnv (tabs background : bool) : Env :=
  {| browser_in_globalThis := true;
     browser_tabs := tabs;
     isBackground := background;
     runtime_sendMessage := fun _ _ => Answered VUndefined;
     tabs_sendMessage := fun _ _ _ _ => Answered VUndefined;
     doesTabExist := fun _ _ => true;
     retries_in_time := 3;
     JSON_stringify := fun _ => "[target]";
     serializeError := fun e => e;
     deserializeError := fun v => v |}.

Definition backgroundEnv : Env := silentEnv true true.

Definition pong : Method := fun _ _ => RetValue (VStr "pong").

Definition pingRegistry : gmap string Method := {[ "ping" := pong ]}.

Definition someSender : value := VObj {[ "id" := VStr "extension" ]}.


(** The fields of an envelope as the receiver recognizes it. *)
Definition envelopeFields (type : string) (args : list value)
    (extra : gmap string value) : gmap string value :=
  <["__webext_messenger__" := VBool true]>
    (<["type" := VStr type]> (<["args" := VArr args]> extra)).

Definition receiverEnvelope (type : string) (args : list value)
    (extra : gmap string value) : value :=
  VObj (envelopeFields type args extra).

(** Handlers that fail, by throwing and by returning a rejected promise. *)
Definition throwing : Method := fun _ _ => Thrown (VErr (Error "handler failed")).
Definition rejecting : Method :=
  fun _ _ => RetPromise (Rejected (VErr (Error "handler failed"))).

Definition failingRegistry : gmap string Method :=
  <["throw" := throwing]> {[ "reject" := rejecting ]}.

(** A context whose runtime messages are all rejected with [message]. *)
Definition failingEnv (message : string) : Env :=
  {| browser_in_globalThis := true;
     browser_tabs := false;
     isBackground := false;
     runtime_sendMessage := fun _ _ => Failed message;
     tabs_sendMessage := fun _ _ _ _ => Failed message;
     doesTabExist := fun _ _ => true;
     retries_in_time := 3;
     JSON_stringify := fun _ => "[target]";
     serializeError := fun e => e;
     deserializeError := fun v => v |}.

Definition optionsTarget : value := VObj {[ "page" := VStr "options" ]}.

(** A reply in the shape the caller recognizes. *)
Definition wireReply (v : value) : value :=
  VObj (<["__webextMessenger" := VBool true]> {[ "value" := v ]}).

(** A context in which a foreign listener answers the first runtime message
    and a peer speaking the caller's protocol answers the later ones. *)
Definition contestedEnv : Env :=
  {| browser_in_globalThis := true;
     browser_tabs := false;
     isBackground := false;
     runtime_sendMessage := fun tr _ =>
       if existsb is_send tr then Answered (wireReply (VNum 1))
       else Answered (VStr "hello");
     tabs_sendMessage := fun _ _ _ _ => Answered VUndefined;
     doesTabExist := fun _ _ => true;
     retries_in_time := 3;
     JSON_stringify := fun _ => "[target]";
     serializeError := fun e => e;
     deserializeError := fun v => v |}.

(** A background context addressing a tab that has been closed. *)
Definition closedTabEnv : Env :=
  {| browser_in_globalThis := true;
     browser_tabs := true;
     isBackground := true;
     runtime_sendMessage := fun _ _ => Answered VUndefined;
     tabs_sendMessage := fun _ _ _ _ =>
       Failed "Could not establish connection. Receiving end does not exist.";
     doesTabExist := fun _ _ => false;
     retries_in_time := 3;
     JSON_stringify := fun _ => "[target]";
     serializeError := fun e => e;
     deserializeError := fun v => v |}.

Definition tabTarget : value := VObj {[ "tabId" := VNum 1 ]}.

(** An envelope that asks the receiving context to forward [ping]. *)
Definition forwardFields : gmap string value :=
  envelopeFields "ping" [VNum 7] {[ "target" := tabTarget ]}.

Definition forwardEnvelope : value := VObj forwardFields.

End Scenarios.
Import Scenarios.

(* ===================================================================== *)
(** ** What is observed of a run *)
(* ===================================================================== *)

Module Observations.

(** What the host answered to the message that the event [sent] handed to
    it when the trace was [before]. *)
Definition host_answer (E : Env) (before : trace) (sent : event) : delivery :=
  match sent with
  | RuntimeSend message => runtime_sendMessage E before message
  | TabsSend tabId message options =>
      tabs_sendMessage E before tabId message options
  | _ => Answered VUndefined
  end.

(** How many messages a trace hands to the bus. *)
Definition count_sends (tr : trace) : nat := length (List.filter is_send tr).

(** A computation that only appends events, at most [c] of them messages
    for the bus. *)
Definition sends_at_most {A} (c : nat) (m : M A) : Prop :=
  forall tr, exists evs, snd (m tr) = tr ++ evs /\ (count_sends evs <= c)%nat.

(** The two host messages after which [onFailedAttempt] retries whatever
    the target: the receiving end does not exist yet, or its handlers are
    not registered yet. *)
Definition isTransient (message : string) : bool :=
  String.eqb message _errorNonExistingTarget
  || String.prefix "No handlers registered in " message.

(** An event that is not a message to a tab. *)
Definition not_tab_send (e : event) : Prop :=
  match e with TabsSend _ _ _ => False | _ => True end.

(** An event that, if it is a message for the bus, goes to the tab [tabId]
    with the options [{ frameId }]. *)
Definition tab_send_to (tabId frameId : value) (e : event) : Prop :=
  match e with
  | RuntimeSend _ => False
  | TabsSend t _ o => t = tabId /\ o = VObj {[ "frameId" := frameId ]}
  | _ => True
  end.

(** An event that is not a liveness query. *)
Definition no_liveness_query (e : event) : Prop :=
  match e with TabExistsQuery _ => False | _ => True end.

(** The log lines of a registration loop that stores all of [entries]. *)
Definition registered_log (entries : list (string * Method)) : trace :=
  map (fun entry => Log Debug ["Messenger: Registered"; fst entry]) entries.

(** A context whose host rejects the first runtime message it is handed,
    the receiving end not being there yet, and answers the later ones as a
    peer of the caller does. *)
Definition warmingUpEnv : Env :=
  {| browser_in_globalThis := true;
     browser_tabs := false;
     isBackground := false;
     runtime_sendMessage := fun tr _ =>
       if (count_sends tr <? 1)%nat
       then Failed "Could not establish connection. Receiving end does not exist."
       else Answered (wireReply (VStr "pong"));
     tabs_sendMessage := fun _ _ _ _ => Answered VUndefined;
     doesTabExist := fun _ _ => true;
     retries_in_time := 3;
     JSON_stringify := fun _ => "[target]";
     serializeError := fun e => e;
     deserializeError := fun v => v |}.

(** A context without the [browser] global. *)
Definition bareEnv : Env :=
  {| browser_in_globalThis := false;
     browser_tabs := false;
     isBackground := false;
     runtime_sendMessage := fun _ _ => Answered VUndefined;
     tabs_sendMessage := fun _ _ _ _ => Answered VUndefined;
     doesTabExist := fun _ _ => true;
     retries_in_time := 3;
     JSON_stringify := fun _ => "[target]";
     serializeError := fun e => e;
     deserializeError := fun v => v |}.

Definition ping : Method := fun _ args => RetValue (VArr args).

Definition twoMethods : list (string * Method) := [("pong", pong); ("echo", ping)].

End Observations.
Import Observations.

(* ===================================================================== *)
(** * Properties *)
(* ===================================================================== *)

(** ** Property names and objects *)

Lemma in_operator_of_get_string (k : string) (target : value) (s : string) :
  k <> "message" ->
  get target k = VStr s -> in_operator k target = inl true.
Proof.
  intros Hk Hget. destruct target as [| | | | | |o|e]; simpl in *; try discriminate.
  - destruct (o !! k) as [v|] eqn:Hlook; simpl in Hget; [|discriminate].
    reflexivity.
  - destruct (String.eqb k "message") eqn:Heq; [|discriminate].
    apply String.eqb_eq in Heq. contradiction.
Qed.

Lemma in_operator_of_get_number (k : string) (target : value) (z : Z) :
  get target k = VNum z -> exists b, in_operator k target = inl b.
Proof.
  intros Hget. destruct target as [| | | | | |o|e]; simpl in *; try discriminate.
  - eauto.
  - destruct (String.eqb k "message"); discriminate.
Qed.

(** A payload the receiver recognizes is a plain object with a string
    [type], the receiver's tag and an array of [args]. *)
Lemma isMessengerMessage_shape (message : value) :
  isMessengerMessage message = true <->
  exists o type args,
    message = VObj o /\ o !! "type" = Some (VStr type)
    /\ o !! "__webext_messenger__" = Some (VBool true)
    /\ o !! "args" = Some (VArr args).
Proof.
  unfold isMessengerMessage. split.
  - intros H. repeat (apply andb_prop in H; destruct H as [H ?]).
    destruct message as [| | | | | |o|e]; simpl in *; try discriminate.
    destruct (o !! "type") as [[| | | |ty| | |]|] eqn:Ht;
      simpl in *; try discriminate.
    destruct (o !! "__webext_messenger__") as [[| |[|]| | | | |]|] eqn:Hg;
      simpl in *; try discriminate.
    destruct (o !! "args") as [[| | | | |l| |]|] eqn:Ha;
      simpl in *; try discriminate.
    exists o, ty, l. auto.
  - intros (o & type & args & -> & Ht & Hg & Ha). simpl.
    rewrite Ht, Hg, Ha. reflexivity.
Qed.

(** ** C4: the local path of [messenger] *)

(** C4. When the target's page is "background" and the calling context is
    the background context, [messenger] never touches the bus: it looks the
    method up in the registry of its own context and completes exactly as
    the handler does, having written one warning to the log; when there is
    no handler it throws the MessengerError "No handler registered locally
    for <type>" and leaves the trace as it was.  No envelope is made and no
    retry is run in either case. *)
Theorem messenger_background_handled_locally
    (E : Env) (registry : gmap string Method) (type : string)
    (options : Options) (target : value) (args : list value) (tr : trace) :
  get target "page" = VStr "background" ->
  isBackground E = true ->
  messenger E registry type options target args tr =
    match registry !! type with
    | Some handler =>
        (handler (VObj {[ "trace" := VArr [] ]}) args,
         tr ++ [Log Warn [type; "is being handled locally"]])
    | None =>
        (Thrown (VErr (MessengerError
                         ("No handler registered locally for " +:+ type))), tr)
    end.
Proof.
  intros Hpage Hbg. unfold messenger.
  rewrite (in_operator_of_get_string "page" target "background") by (done || congruence).
  rewrite Hpage, Hbg. simpl.
  destruct (registry !! type); reflexivity.
Qed.

Lemma messenger_background_handled_locally_witness :
  get backgroundTarget "page" = VStr "background"
  /\ isBackground backgroundEnv = true
  /\ messenger backgroundEnv pingRegistry "ping" emptyOptions backgroundTarget [] []
     = (RetValue (VStr "pong"), [Log Warn ["ping"; "is being handled locally"]]).
Proof.
  split; [reflexivity|]. split; [reflexivity|].
  exact (messenger_background_handled_locally backgroundEnv pingRegistry "ping"
           emptyOptions backgroundTarget [] [] eq_refl eq_refl).
Defined.

(** ** C9: payloads the receiver ignores *)

Lemma isMessengerMessage_defects (message : value) :
  get message "__webext_messenger__" <> VBool true
  \/ (forall s, get message "type" <> VStr s)
  \/ (forall l, get message "args" <> VArr l) ->
  isMessengerMessage message = false.
Proof.
  intros H. destruct (isMessengerMessage message) eqn:Hm; [|reflexivity].
  apply isMessengerMessage_shape in Hm as (o & type & args & -> & Ht & Hg & Ha).
  simpl in H. rewrite Ht, Hg, Ha in H. simpl in H.
  destruct H as [H|[H|H]]; [destruct H | destruct (H type) | destruct (H args)];
    reflexivity.
Qed.

(** C9. A payload that fails the envelope test (in particular one without
    the protocol tag, with a [type] that is not a string or with [args]
    that is not an array) makes the listener return [undefined] and leave no
    event at all; a recognized envelope whose target is falsy and whose
    method has no handler in the registry makes it return [undefined] after
    two log lines.  In both cases nothing is thrown, no promise is returned
    (so no response is sent) and nothing reaches the bus. *)
Theorem onMessageListener_ignores_silently
    (E : Env) (gcsm : string -> value -> list value -> M completion)
    (registry : gmap string Method) (message sender : value) (tr : trace) :
  (get message "__webext_messenger__" <> VBool true
   \/ (forall s, get message "type" <> VStr s)
   \/ (forall l, get message "args" <> VArr l) ->
   isMessengerMessage message = false)
  /\ (isMessengerMessage message = false ->
      onMessageListener E gcsm registry message sender tr
      = (RetValue VUndefined, tr))
  /\ (isMessengerMessage message = true ->
      truthy (get message "target") = false ->
      registry !! as_string (get message "type") = None ->
      onMessageListener E gcsm registry message sender tr
      = (RetValue VUndefined,
         tr ++ [Log Debug ["Messenger:"; as_string (get message "type"); "received"];
                Log Warn ["Messenger:"; as_string (get message "type");
                          "ignored, can't be handled here"]])).
Proof.
  split; [apply isMessengerMessage_defects|]. split.
  - intros Hm. unfold onMessageListener. rewrite Hm. reflexivity.
  - intros Hm Htarget Hnone. unfold onMessageListener.
    rewrite Hm. simpl. unfold bind, console_debug, console_warn, emit, ret.
    rewrite Htarget, Hnone. rewrite <- app_assoc. reflexivity.
Qed.

Lemma onMessageListener_ignores_silently_witness :
  onMessageListener backgroundEnv (getContentScriptMethod backgroundEnv pingRegistry)
    pingRegistry (VObj {[ "type" := VStr "ping" ]}) someSender []
  = (RetValue VUndefined, [])
  /\ onMessageListener backgroundEnv (getContentScriptMethod backgroundEnv pingRegistry)
       pingRegistry (receiverEnvelope "pang" [] ∅) someSender []
     = (RetValue VUndefined,
        [Log Debug ["Messenger:"; "pang"; "received"];
         Log Warn ["Messenger:"; "pang"; "ignored, can't be handled here"]]).
Proof.
  split.
  - destruct (onMessageListener_ignores_silently backgroundEnv
                (getContentScriptMethod backgroundEnv pingRegistry) pingRegistry
                (VObj {[ "type" := VStr "ping" ]}) someSender [])
      as (_ & Hignored & _).
    apply Hignored. reflexivity.
  - destruct (onMessageListener_ignores_silently backgroundEnv
                (getContentScriptMethod backgroundEnv pingRegistry) pingRegistry
                (receiverEnvelope "pang" [] ∅) someSender [])
      as (_ & _ & Hunhandled).
    apply Hunhandled; reflexivity.
Defined.

(** ** C7: the forward case of the receiver *)

(** The run of the listener on a recognized envelope with a truthy
    [target], branch by branch. *)
Lemma onMessageListener_forward_run
    (E : Env) (gcsm : string -> value -> list value -> M completion)
    (registry : gmap string Method) (message sender : value) (tr : trace) :
  isMessengerMessage message = true ->
  truthy (get message "target") = true ->
  onMessageListener E gcsm registry message sender tr =
    if browser_tabs E then
      let (c, tr') :=
        gcsm (as_string (get message "type")) (get message "target")
          (as_array (get message "args"))
          ((tr ++ [Log Debug ["Messenger:"; as_string (get message "type"); "received"]])
             ++ [Log Debug ["Messenger:"; as_string (get message "type"); "forwarded"]]) in
      respond E (as_string (get message "type")) (async_call c) tr'
    else
      (Thrown (VErr (wrongContext E (as_string (get message "type"))
                       (get message "target"))),
       tr ++ [Log Debug ["Messenger:"; as_string (get message "type"); "received"]]).
Proof.
  intros Hm Htarget.
  unfold onMessageListener. rewrite Hm. simpl.
  unfold bind at 1. unfold console_debug at 1. unfold emit at 1.
  rewrite Htarget.
  destruct (browser_tabs E); simpl; [|reflexivity].
  unfold bind at 1. unfold console_debug at 1. unfold emit at 1.
  unfold bind at 1. reflexivity.
Qed.

(** C7. For a recognized envelope with a truthy [target]: in a context
    without [browser.tabs] the listener throws, synchronously, the
    MessengerError "Message <type> sent to wrong context, it can't be
    forwarded to <target>", having done nothing but log the reception (no
    call is issued, nothing is retried); in a context with [browser.tabs]
    it calls the public method obtained for the envelope's [type] with the
    envelope's [target] and [args], and answers with a promise fulfilled
    with the tagged [{ value }] of that call's result or the tagged
    [{ error }] of its serialized failure. *)
Theorem onMessageListener_forward
    (E : Env) (gcsm : string -> value -> list value -> M completion)
    (registry : gmap string Method) (message sender : value) (tr : trace) :
  isMessengerMessage message = true ->
  truthy (get message "target") = true ->
  let type := as_string (get message "type") in
  let target := get message "target" in
  let args := as_array (get message "args") in
  let received := tr ++ [Log Debug ["Messenger:"; type; "received"]] in
  onMessageListener E gcsm registry message sender tr =
    if browser_tabs E then
      let (c, tr') :=
        gcsm type target args
          (received ++ [Log Debug ["Messenger:"; type; "forwarded"]]) in
      (RetPromise
         (Fulfilled
            (VObj (<["__webext_messenger__" := __webext_messenger__]>
                     (wireBody E (async_call c))))),
       tr' ++ [Log Debug ["Messenger:"; type; "responding"]])
    else
      (Thrown (VErr (MessengerError
                       ("Message " +:+ type
                          +:+ " sent to wrong context, it can't be forwarded to "
                          +:+ JSON_stringify E target))),
       received).
Proof.
  intros Hm Htarget type target args received.
  subst type target args received.
  rewrite onMessageListener_forward_run by assumption.
  destruct (browser_tabs E); [|reflexivity].
  destruct (gcsm _ _ _ _) as [c tr']. reflexivity.
Qed.

Lemma onMessageListener_forward_witness :
  onMessageListener (silentEnv false true)
    (getContentScriptMethod (silentEnv false true) pingRegistry)
    pingRegistry forwardEnvelope someSender []
  = (Thrown (VErr (MessengerError
                     "Message ping sent to wrong context, it can't be forwarded to [target]")),
     [Log Debug ["Messenger:"; "ping"; "received"]])
  /\ onMessageListener backgroundEnv (fun _ _ _ => ret (RetValue (VStr "done")))
       pingRegistry forwardEnvelope someSender []
     = (RetPromise
          (Fulfilled
             (VObj (<["__webext_messenger__" := VBool true]>
                      {[ "value" := VStr "done" ]}))),
        [Log Debug ["Messenger:"; "ping"; "received"];
         Log Debug ["Messenger:"; "ping"; "forwarded"];
         Log Debug ["Messenger:"; "ping"; "responding"]]).
Proof.
  split.
  - exact (onMessageListener_forward (silentEnv false true)
             (getContentScriptMethod (silentEnv false true) pingRegistry)
             pingRegistry forwardEnvelope someSender [] eq_refl eq_refl).
  - exact (onMessageListener_forward backgroundEnv
             (fun _ _ _ => ret (RetValue (VStr "done")))
             pingRegistry forwardEnvelope someSender [] eq_refl eq_refl).
Defined.

(** ** C8: registration *)

(** The loop only ever adds entries for names that were free: whatever was
    registered stays registered, with the same handler. *)
Lemma registerEach_keeps_entries (entries : list (string * Method)) :
  forall (registry : gmap string Method) (tr : trace) thrown registry' tr',
    registerEach entries registry tr = (thrown, registry', tr') ->
    forall type method,
      registry !! type = Some method -> registry' !! type = Some method.
Proof.
  induction entries as [|[t m] rest IH]; intros registry tr thrown registry' tr' Hrun
    type method Hreg; simpl in Hrun.
  - unfold ret in Hrun. congruence.
  - case_bool_decide as Hdup.
    + unfold ret in Hrun. congruence.
    + unfold bind, console_debug, emit in Hrun.
      eapply IH; [exact Hrun|].
      rewrite lookup_insert_ne; [exact Hreg|].
      intros ->. apply Hdup. eauto.
Qed.

(** When one of the names is taken, the loop throws at the first name of
    the list that is taken by then; the names of an object being distinct,
    that name was taken before the loop began. *)
Lemma registerEach_duplicate (entries : list (string * Method)) :
  forall (registry : gmap string Method) (tr : trace) type method,
    registry !! type = Some method ->
    type ∈ entries.*1 ->
    exists type' registry' tr',
      registerEach entries registry tr
      = (Some (MessengerError ("Handler already set for " +:+ type')),
         registry', tr')
      /\ type' ∈ entries.*1
      /\ (NoDup entries.*1 -> is_Some (registry !! type')).
Proof.
  induction entries as [|[t m] rest IH]; intros registry tr type method Hreg Hin;
    simpl in *.
  - apply elem_of_nil in Hin. destruct Hin.
  - case_bool_decide as Hdup.
    + exists t, registry, tr. unfold ret. split; [reflexivity|].
      split; [apply list_elem_of_here | intros _; exact Hdup].
    + assert (t <> type) as Hne by (intros ->; apply Hdup; eauto).
      apply elem_of_cons in Hin as [->|Hin]; [congruence|].
      unfold bind, console_debug, emit.
      destruct (IH (<[t:=m]> registry)
                  (tr ++ [Log Debug ["Messenger: Registered"; t]]) type method)
        as (type' & registry' & tr' & Hrun & Hin' & Hsome);
        [rewrite lookup_insert_ne; assumption | exact Hin |].
      exists type', registry', tr'. split; [exact Hrun|].
      split; [apply list_elem_of_further; exact Hin' |].
      intros Hnodup. apply NoDup_cons in Hnodup as [Hfresh Hnodup].
      specialize (Hsome Hnodup).
      rewrite lookup_insert_ne in Hsome; [exact Hsome|].
      intros ->. contradiction.
Qed.

(** Whether it succeeds or throws, [registerMethods] leaves every entry
    that was in the registry as it was. *)
Lemma registerMethods_keeps_entries
    (E : Env) (ctx ctx' : Context) (methods : list (string * Method))
    (tr tr' : trace) (c : completion) :
  registerMethods E ctx methods tr = (c, ctx', tr') ->
  forall type method,
    handlers ctx !! type = Some method -> handlers ctx' !! type = Some method.
Proof.
  unfold registerMethods, bind, ret.
  destruct (registerEach methods (handlers ctx) tr) as [[thrown registry] tr0] eqn:Hrun.
  pose proof (registerEach_keeps_entries methods _ _ _ _ _ Hrun) as Hkeep.
  destruct thrown; [|destruct (browser_in_globalThis E)];
    intros [= _ <- _]; exact Hkeep.
Qed.

(** C8. If [methods] names a method that the context has already
    registered, [registerMethods] throws a MessengerError "Handler already
    set for <name>" (synchronously: it is its completion, not a promise),
    the handler registered before for that method is still the one the
    registry gives, as is every other earlier entry, and the listener
    is not armed by the failed call.  The name in the error is one of
    [methods], and, the names of [methods] being distinct, one that was
    registered before the call.  Registering just one taken name throws
    for that very name and leaves context and log untouched.  The registry
    being a map from names to handlers, a name never has two. *)
Theorem registerMethods_duplicate_rejected
    (E : Env) (ctx : Context) (methods : list (string * Method))
    (type : string) (method : Method) (tr : trace) :
  handlers ctx !! type = Some method ->
  type ∈ methods.*1 ->
  (exists type' ctx' tr',
      registerMethods E ctx methods tr
      = (Thrown (VErr (MessengerError ("Handler already set for " +:+ type'))),
         ctx', tr')
      /\ type' ∈ methods.*1
      /\ (NoDup methods.*1 -> is_Some (handlers ctx !! type'))
      /\ handlers ctx' !! type = Some method
      /\ (forall k h, handlers ctx !! k = Some h -> handlers ctx' !! k = Some h)
      /\ listening ctx' = listening ctx)
  /\ (forall other : Method,
        registerMethods E ctx [(type, other)] tr
        = (Thrown (VErr (MessengerError ("Handler already set for " +:+ type))),
           ctx, tr)).
Proof.
  intros Hreg Hin. split.
  - destruct (registerEach_duplicate methods (handlers ctx) tr type method Hreg Hin)
      as (type' & registry' & tr' & Hrun & Hin' & Htaken).
    exists type', (mkContext registry' (listening ctx)), tr'.
    unfold registerMethods, bind, ret. rewrite Hrun. simpl.
    split; [reflexivity|]. split; [exact Hin'|]. split; [exact Htaken|].
    pose proof (registerEach_keeps_entries methods _ _ _ _ _ Hrun) as Hkeep.
    split; [apply Hkeep; exact Hreg|]. split; [exact Hkeep | reflexivity].
  - intros other. unfold registerMethods, bind, ret. simpl.
    rewrite bool_decide_eq_true_2 by eauto. unfold ret.
    destruct ctx; reflexivity.
Qed.

Lemma registerMethods_duplicate_rejected_witness :
  registerMethods backgroundEnv (mkContext pingRegistry true)
    [("ping", fun _ _ => RetValue VNull)] []
  = (Thrown (VErr (MessengerError "Handler already set for ping")),
     mkContext pingRegistry true, []).
Proof.
  destruct (registerMethods_duplicate_rejected backgroundEnv
              (mkContext pingRegistry true) [("ping", fun _ _ => RetValue VNull)]
              "ping" pong []) as [_ Hsingle].
  - reflexivity.
  - apply list_elem_of_here.
  - apply Hsingle.
Defined.

(** ** The retry loop *)

Lemma pRetry_unfold (k : nat) (input : nat -> M (value + js_error))
    (onFailed : js_error -> M (option js_error)) (n : nat) (tr : trace) :
  pRetry k input onFailed n tr =
    let (r, tr1) := input n tr in
    match r with
    | inl v => (inl v, tr1)
    | inr error =>
        match err_cls error with
        | ETypeError => (inr error, tr1)
        | _ =>
            let (thrown, tr2) := onFailed error tr1 in
            match thrown with
            | Some e => (inr e, tr2)
            | None =>
                match k with
                | O => (inr error, tr2)
                | S k' => pRetry k' input onFailed (S n) tr2
                end
            end
        end
    end.
Proof.
  destruct k; simpl; unfold bind, ret;
    destruct (input n tr) as [[v|error] tr1]; try reflexivity;
    destruct (err_cls error); try reflexivity;
    destruct (onFailed error tr1) as [[e|] tr2]; reflexivity.
Qed.

Lemma attempt_unfold (E : Env) (type : string) (target : value)
    (send : nat -> M delivery) (n : nat) (tr : trace) :
  attempt E type target send n tr =
    let (d, tr1) := send n tr in
    (match d with
     | Failed message => inr (Error message)
     | Answered response => classifyResponse E type target response
     end, tr1).
Proof. unfold attempt, bind, ret. destruct (send n tr). reflexivity. Qed.

(** With an object for a target, an attempt fails with an [Error] of the
    host or with a [MessengerError], never with a [TypeError]. *)
Lemma attempt_error_class (E : Env) (type : string) (target : value)
    (send : nat -> M delivery) (n : nat) (tr tr1 : trace) (error : js_error)
    (has_page : bool) :
  in_operator "page" target = inl has_page ->
  attempt E type target send n tr = (inr error, tr1) ->
  err_cls error <> ETypeError.
Proof.
  intros Hin. rewrite attempt_unfold. destruct (send n tr) as [[response|msg] tr'].
  - unfold classifyResponse. rewrite Hin.
    destruct (isMessengerResponse response); [discriminate|].
    destruct response, has_page; intros [= <- _]; discriminate.
  - intros [= <- _]. discriminate.
Qed.

(** What [onFailedAttempt] does with an error it may not retry. *)
Lemma onFailedAttempt_rethrows (E : Env) (target : value) (error : js_error)
    (tr : trace) :
  String.eqb (err_message error) _errorTargetClosedEarly = false ->
  mayRetry target error = false ->
  onFailedAttempt E target error tr = (Some error, tr).
Proof.
  intros Hclosed Hretry. unfold onFailedAttempt. rewrite Hclosed, Hretry.
  reflexivity.
Qed.

(** What it does with one it may retry. *)
Lemma onFailedAttempt_retries (E : Env) (target : value) (error : js_error)
    (tr : trace) :
  String.eqb (err_message error) _errorTargetClosedEarly = false ->
  mayRetry target error = true ->
  onFailedAttempt E target error tr =
    if browser_tabs E && is_number (get target "tabId") then
      (if doesTabExist E tr (get target "tabId") then None
       else Some (Error errorTabDoesntExist),
       tr ++ [TabExistsQuery (get target "tabId")])
    else (None, tr).
Proof.
  intros Hclosed Hretry. unfold onFailedAttempt. rewrite Hclosed, Hretry.
  destruct (browser_tabs E && is_number (get target "tabId")); [|reflexivity].
  unfold bind, queryTabExists, ret.
  destruct (doesTabExist E tr (get target "tabId")); reflexivity.
Qed.

(** ** C3: failures the loop does not retry *)

(** C3, as amended.  When the host rejects an attempt with a message that
    is neither the "receiving end does not exist" string nor one starting
    with "No handlers registered in ", the loop stops at that attempt,
    whatever the target (the page "background" included) and whatever
    budget is left: its promise rejects with that very Error, or, for the
    channel-closed-early string, with the Error "The target was closed
    before receiving a response"; nothing more is sent and the liveness of
    the tab is not queried. *)
Theorem host_failure_propagates
    (E : Env) (type : string) (target : value) (send : nat -> M delivery)
    (k n : nat) (tr tr1 : trace) (message : string) :
  send n tr = (Failed message, tr1) ->
  message <> _errorNonExistingTarget ->
  String.prefix "No handlers registered in " message = false ->
  pRetry k (attempt E type target send) (onFailedAttempt E target) n tr
  = (inr (Error (if String.eqb message _errorTargetClosedEarly
                 then errorTargetClosedEarly else message)), tr1).
Proof.
  intros Hsend Hne Hprefix.
  rewrite pRetry_unfold, attempt_unfold, Hsend. simpl.
  destruct (String.eqb message _errorTargetClosedEarly) eqn:Hclosed.
  - unfold onFailedAttempt. simpl. rewrite Hclosed. reflexivity.
  - rewrite onFailedAttempt_rethrows; [reflexivity | exact Hclosed |].
    unfold mayRetry. simpl. rewrite Hprefix, andb_false_r. simpl.
    rewrite orb_false_r. apply String.eqb_neq. exact Hne.
Qed.

Lemma host_failure_propagates_witness :
  pRetry 3
    (attempt (failingEnv "boom") "ping" backgroundTarget
       (sendMessageToRuntime (failingEnv "boom") "ping" [] backgroundTarget
          emptyOptions))
    (onFailedAttempt (failingEnv "boom") backgroundTarget) 1 []
  = (inr (Error "boom"),
     [Log Debug ["ping"; "sending message to runtime"; ""];
      RuntimeSend (makeMessage "ping" [] backgroundTarget emptyOptions)]).
Proof.
  apply (host_failure_propagates (failingEnv "boom") "ping" backgroundTarget
           (sendMessageToRuntime (failingEnv "boom") "ping" [] backgroundTarget
              emptyOptions) 3 1 [] _ "boom").
  - reflexivity.
  - discriminate.
  - reflexivity.
Defined.

(** C3 as stated fails: a call to the page "background" whose delivery the
    host rejects with "boom" is made with three retries in hand, and yet the
    message is sent once and the call rejects with that error. *)
Lemma background_failure_is_not_retried :
  manageMessage (failingEnv "boom") "ping" backgroundTarget
    (sendMessageToRuntime (failingEnv "boom") "ping" [] backgroundTarget
       emptyOptions) []
  = (Rejected (VErr (Error "boom")),
     [Log Debug ["ping"; "sending message to runtime"; ""];
      RuntimeSend (makeMessage "ping" [] backgroundTarget emptyOptions)])
  /\ Nat.min default_retries (retries_in_time (failingEnv "boom")) = 3.
Proof. split; reflexivity. Qed.

(** ** C5: how one attempt's reply is classified *)

Lemma conflict_is_no_host_string (type : string) :
  String.eqb (err_message (thirdPartyConflict type)) _errorTargetClosedEarly = false
  /\ String.eqb (err_message (thirdPartyConflict type)) _errorNonExistingTarget = false
  /\ String.prefix "No handlers registered in "
       (err_message (thirdPartyConflict type)) = false.
Proof. repeat split; reflexivity. Qed.

(** C5, as amended.  Let the host answer an attempt with [response], the
    target being an object.
    - If [response] is recognized by [isMessengerResponse], the loop ends
      there and resolves with it.
    - If it is not recognized and is not [undefined], the attempt throws
      the MessengerError "Conflict: The message <type> was handled by a
      third-party listener" and yields no value.  For the page
      "background" that error ends the loop at once; for any other target
      it is retried like every MessengerError: while the budget lasts
      the next attempt follows, after the liveness query where the target
      has a numeric [tabId] and [browser.tabs] is there, unless that query
      finds the tab gone.
    - If it is [undefined], the attempt throws the MessengerError "The
      target <target> for <type> was not found" when the target has a
      [page] property, and "Messenger was not available in the target
      <target> for <type>" otherwise. *)
Theorem attempt_reply_classified
    (E : Env) (type : string) (target : value) (send : nat -> M delivery)
    (n : nat) (tr tr1 : trace) (response : value) (has_page : bool) :
  send n tr = (Answered response, tr1) ->
  in_operator "page" target = inl has_page ->
  let loop k := pRetry k (attempt E type target send) (onFailedAttempt E target) in
  let conflict :=
    MessengerError
      ("Conflict: The message " +:+ type +:+ " was handled by a third-party listener") in
  (isMessengerResponse response = true ->
   forall k, loop k n tr = (inl response, tr1))
  /\ (isMessengerResponse response = false -> response <> VUndefined ->
      attempt E type target send n tr = (inr conflict, tr1)
      /\ (is_string_value (get target "page") "background" = true ->
          forall k, loop k n tr = (inr conflict, tr1))
      /\ (is_string_value (get target "page") "background" = false ->
          forall k,
            loop (S k) n tr =
              if browser_tabs E && is_number (get target "tabId") then
                let asked := tr1 ++ [TabExistsQuery (get target "tabId")] in
                if doesTabExist E tr1 (get target "tabId")
                then loop k (S n) asked
                else (inr (Error "The tab doesn't exist"), asked)
              else loop k (S n) tr1))
  /\ (response = VUndefined ->
      attempt E type target send n tr
      = (inr (MessengerError
                (if has_page
                 then "The target " +:+ JSON_stringify E target +:+ " for "
                        +:+ type +:+ " was not found"
                 else "Messenger was not available in the target "
                        +:+ JSON_stringify E target +:+ " for " +:+ type)),
         tr1)).
Proof.
  intros Hsend Hin loop conflict. subst loop.
  change conflict with (thirdPartyConflict type). clear conflict.
  destruct (conflict_is_no_host_string type) as (Hclosed & Hnone & Hprefix).
  split; [|split].
  - intros Hrec k. rewrite pRetry_unfold, attempt_unfold, Hsend.
    unfold classifyResponse. rewrite Hrec. reflexivity.
  - intros Hrec Hdef.
    assert (classifyResponse E type target response = inr (thirdPartyConflict type))
      as Hclass.
    { unfold classifyResponse. rewrite Hrec.
      destruct response; try reflexivity. contradiction. }
    split; [|split].
    + rewrite attempt_unfold, Hsend, Hclass. reflexivity.
    + intros Hbg k. rewrite pRetry_unfold, attempt_unfold, Hsend, Hclass.
      cbn [err_cls thirdPartyConflict MessengerError].
      rewrite onFailedAttempt_rethrows; [reflexivity | exact Hclosed |].
      unfold mayRetry. rewrite Hbg, Hnone, Hprefix. reflexivity.
    + intros Hbg k. rewrite pRetry_unfold, attempt_unfold, Hsend, Hclass.
      cbn [err_cls thirdPartyConflict MessengerError].
      rewrite onFailedAttempt_retries;
        [| exact Hclosed | unfold mayRetry; rewrite Hbg; reflexivity].
      destruct (browser_tabs E && is_number (get target "tabId")); [|reflexivity].
      destruct (doesTabExist E tr1 (get target "tabId")); reflexivity.
  - intros ->. rewrite attempt_unfold, Hsend. unfold classifyResponse.
    simpl. rewrite Hin. destruct has_page; reflexivity.
Qed.

Lemma attempt_reply_classified_witness :
  attempt contestedEnv "ping" optionsTarget
    (sendMessageToRuntime contestedEnv "ping" [] optionsTarget emptyOptions) 1 []
  = (inr (MessengerError
            "Conflict: The message ping was handled by a third-party listener"),
     [Log Debug ["ping"; "sending message to runtime"; ""];
      RuntimeSend (makeMessage "ping" [] optionsTarget emptyOptions)]).
Proof.
  destruct (attempt_reply_classified contestedEnv "ping" optionsTarget
              (sendMessageToRuntime contestedEnv "ping" [] optionsTarget emptyOptions)
              1 [] _ (VStr "hello") true eq_refl eq_refl)
    as (_ & Hforeign & _).
  destruct Hforeign as (Hattempt & _); [reflexivity | discriminate |].
  exact Hattempt.
Defined.

(** C5 as stated fails: the conflict is retried.  A foreign listener
    answers the first message to the page "options" with a string; the
    second attempt is answered by a peer, and the call resolves with 1. *)
Lemma conflict_is_retried :
  manageMessage contestedEnv "ping" optionsTarget
    (sendMessageToRuntime contestedEnv "ping" [] optionsTarget emptyOptions) []
  = (Fulfilled (VNum 1),
     [Log Debug ["ping"; "sending message to runtime"; ""];
      RuntimeSend (makeMessage "ping" [] optionsTarget emptyOptions);
      Log Debug ["ping"; "sending message to runtime"; "(try: 2)"];
      RuntimeSend (makeMessage "ping" [] optionsTarget emptyOptions);
      Log Debug ["ping"; "replied successfully"]])
  /\ runtime_sendMessage contestedEnv [] (makeMessage "ping" [] optionsTarget emptyOptions)
     = Answered (VStr "hello").
Proof. split; reflexivity. Qed.

(** ** C6: the liveness check before a retry *)

(** C6.  Let an attempt fail with an error that [onFailedAttempt] would
    retry, in a context with [browser.tabs], for a target whose [tabId] is
    a number.  Then the host is asked whether that tab exists, right after
    the failed attempt.  If it does not, the loop stops there, whatever
    budget is left, and rejects with the Error "The tab doesn't exist"; at
    the first attempt this is also how [manageMessage] rejects, nothing
    having been sent but that one message.  If the tab exists, the next
    attempt follows while the budget lasts. *)
Theorem retry_asks_whether_tab_exists
    (E : Env) (type : string) (target : value) (send : nat -> M delivery)
    (n : nat) (tr tr1 : trace) (error : js_error) (tabId : Z) :
  attempt E type target send n tr = (inr error, tr1) ->
  err_message error <> _errorTargetClosedEarly ->
  mayRetry target error = true ->
  browser_tabs E = true ->
  get target "tabId" = VNum tabId ->
  let loop k := pRetry k (attempt E type target send) (onFailedAttempt E target) in
  let asked := tr1 ++ [TabExistsQuery (VNum tabId)] in
  (doesTabExist E tr1 (VNum tabId) = false ->
   (forall k, loop k n tr = (inr (Error errorTabDoesntExist), asked))
   /\ (n = 1 ->
       manageMessage E type target send tr
       = (Rejected (VErr (Error "The tab doesn't exist")), asked)))
  /\ (doesTabExist E tr1 (VNum tabId) = true ->
      forall k, loop (S k) n tr = loop k (S n) asked).
Proof.
  intros Hattempt Hclosed Hretry Htabs HtabId loop asked. subst loop asked.
  apply String.eqb_neq in Hclosed.
  destruct (in_operator_of_get_number "tabId" target tabId HtabId) as [b Hobj].
  assert (exists has_page, in_operator "page" target = inl has_page) as [hp Hin].
  { destruct target; simpl in Hobj; try discriminate; simpl; eauto. }
  pose proof (attempt_error_class E type target send n tr tr1 error hp Hin Hattempt)
    as Hcls.
  assert (forall k,
             pRetry k (attempt E type target send) (onFailedAttempt E target) n tr
             = let (thrown, tr2) := onFailedAttempt E target error tr1 in
               match thrown with
               | Some e => (inr e, tr2)
               | None =>
                   match k with
                   | O => (inr error, tr2)
                   | S k' =>
                       pRetry k' (attempt E type target send)
                         (onFailedAttempt E target) (S n) tr2
                   end
               end) as Hloop.
  { intros k. rewrite pRetry_unfold, Hattempt.
    destruct (err_cls error); try reflexivity. contradiction. }
  rewrite (onFailedAttempt_retries E target error tr1 Hclosed Hretry) in Hloop.
  rewrite Htabs, HtabId in Hloop. simpl in Hloop.
  split.
  - intros Hgone. rewrite Hgone in Hloop. split; [exact Hloop|].
    intros ->. unfold manageMessage, retrying, bind, ret.
    rewrite Hloop. reflexivity.
  - intros Hexists k. rewrite Hexists in Hloop. apply Hloop.
Qed.

Lemma retry_asks_whether_tab_exists_witness :
  manageMessage closedTabEnv "ping" tabTarget
    (sendMessageToTab closedTabEnv "ping" [] tabTarget emptyOptions
       (VNum 1) (VNum 0)) []
  = (Rejected (VErr (Error "The tab doesn't exist")),
     [Log Debug ["ping"; "sending message to tab"; "frame"; ""];
      TabsSend (VNum 1) (makeMessage "ping" [] tabTarget emptyOptions)
        (VObj {[ "frameId" := VNum 0 ]});
      TabExistsQuery (VNum 1)]).
Proof.
  assert (err_message (Error _errorNonExistingTarget) <> _errorTargetClosedEarly)
    as Hclosed by discriminate.
  destruct (retry_asks_whether_tab_exists closedTabEnv "ping" tabTarget
              (sendMessageToTab closedTabEnv "ping" [] tabTarget emptyOptions
                 (VNum 1) (VNum 0))
              1 [] _ (Error _errorNonExistingTarget) 1
              eq_refl Hclosed eq_refl eq_refl eq_refl)
    as [Hgone _].
  destruct (Hgone eq_refl) as [_ Hcall].
  exact (Hcall eq_refl).
Defined.

(** ** What a call hands to the bus *)

Section Appends.
Context (P : event -> Prop).

Lemma appends_ret {A} (a : A) : appends P (ret a).
Proof. intros tr. exists []. simpl. rewrite app_nil_r. auto. Qed.

Lemma appends_bind {A B} (m : M A) (k : A -> M B) :
  appends P m -> (forall a, appends P (k a)) -> appends P (bind m k).
Proof.
  intros Hm Hk tr. unfold bind.
  destruct (Hm tr) as (evs1 & Htr1 & HP1).
  destruct (m tr) as [a tr1]. simpl in Htr1. subst tr1.
  destruct (Hk a (tr ++ evs1)) as (evs2 & Htr2 & HP2).
  exists (evs1 ++ evs2). rewrite Htr2, app_assoc. split; [reflexivity|].
  apply Forall_app. auto.
Qed.

Lemma appends_emit (e : event) : P e -> appends P (emit e).
Proof. intros He tr. exists [e]. simpl. auto. Qed.

Lemma appends_pRetry (input : nat -> M (value + js_error))
    (onFailed : js_error -> M (option js_error)) :
  (forall n, appends P (input n)) ->
  (forall error, appends P (onFailed error)) ->
  forall k n, appends P (pRetry k input onFailed n).
Proof.
  intros Hinput Hfailed k.
  induction k as [|k IH]; intros n; simpl;
    (apply appends_bind; [apply Hinput|]);
    intros [v|error]; try apply appends_ret;
    destruct (err_cls error); try apply appends_ret;
    (apply appends_bind; [apply Hfailed|]);
    intros [e|]; try apply appends_ret; apply IH.
Qed.

End Appends.

Section Envelope.
Context (E : Env) (type : string) (args : list value) (target : value)
  (options : Options).

Lemma appends_log (envelope : value) (lvl : log_level) (parts : list string) :
  appends (carries envelope) (emit (Log lvl parts)).
Proof. apply appends_emit. exact I. Qed.

Lemma appends_sendMessageToRuntime (n : nat) :
  appends (carries (makeMessage type args target options))
    (sendMessageToRuntime E type args target options n).
Proof.
  unfold sendMessageToRuntime, debug.
  apply appends_bind; [apply appends_log|]. intros _ tr.
  exists [RuntimeSend (makeMessage type args target options)].
  split; [reflexivity | repeat constructor].
Qed.

Lemma appends_sendMessageToTab (tabId frameId : value) (n : nat) :
  appends (carries (makeMessage type args target options))
    (sendMessageToTab E type args target options tabId frameId n).
Proof.
  unfold sendMessageToTab, debug.
  apply appends_bind; [apply appends_log|]. intros _ tr.
  exists [TabsSend tabId (makeMessage type args target options)
            (VObj {[ "frameId" := frameId ]})].
  split; [reflexivity | repeat constructor].
Qed.

Lemma appends_onFailedAttempt (message : value) (error : js_error) :
  appends (carries message) (onFailedAttempt E target error).
Proof.
  unfold onFailedAttempt.
  destruct (String.eqb _ _); [apply appends_ret|].
  destruct (mayRetry target error); [|apply appends_ret].
  destruct (browser_tabs E && is_number (get target "tabId")); [|apply appends_ret].
  apply appends_bind; [|intros; apply appends_ret].
  intros tr. exists [TabExistsQuery (get target "tabId")].
  split; [reflexivity | repeat constructor].
Qed.

Lemma appends_manageConnection (message : value) (opts : Options)
    (send : nat -> M delivery) :
  (forall n, appends (carries message) (send n)) ->
  appends (carries message) (manageConnection E type opts target send).
Proof.
  intros Hsend. unfold manageConnection.
  destruct (negb (default false (isNotification opts))).
  - apply appends_bind; [|intros; apply appends_ret].
    unfold manageMessage. apply appends_bind.
    + unfold retrying. apply appends_bind; [|intros; apply appends_ret].
      apply appends_pRetry; [|apply appends_onFailedAttempt].
      intros n. unfold attempt. apply appends_bind; [apply Hsend|].
      intros; apply appends_ret.
    + intros [response|error]; [|apply appends_ret].
      destruct (in_operator "error" response) as [[|]|e];
        try apply appends_ret;
        (apply appends_bind; [apply appends_emit; exact I|]);
        intros; apply appends_ret.
  - apply appends_bind; [apply Hsend|].
    intros [response|msg]; (apply appends_bind; [|intros; apply appends_ret]);
      [apply appends_ret | apply appends_emit; exact I].
Qed.

(** Whatever [messenger] hands to the bus is the envelope made of its own
    method, arguments, target and options. *)
Lemma messenger_sends_its_envelope (registry : gmap string Method) :
  appends (carries (makeMessage type args target options))
    (messenger E registry type options target args).
Proof.
  unfold messenger.
  destruct (in_operator "page" target) as [[|]|e]; [| |apply appends_ret].
  - destruct (is_string_value (get target "page") "background" && isBackground E).
    + destruct (registry !! type); [|apply appends_ret].
      apply appends_bind; [apply appends_emit; exact I|].
      intros; apply appends_ret.
    + apply appends_manageConnection. apply appends_sendMessageToRuntime.
  - destruct (negb (browser_in_globalThis E)); [apply appends_ret|].
    destruct (negb (browser_tabs E)).
    + apply appends_manageConnection. apply appends_sendMessageToRuntime.
    + apply appends_manageConnection. apply appends_sendMessageToTab.
Qed.

End Envelope.

(** ** C10: forwarding leaves the envelope's options behind *)

(** The listener reads [type], [target], [args] and the tag, nothing else:
    the [options] field may hold anything. *)
Lemma onMessageListener_ignores_options
    (E : Env) (gcsm : string -> value -> list value -> M completion)
    (registry : gmap string Method) (o : gmap string value)
    (options sender : value) (tr : trace) :
  onMessageListener E gcsm registry (VObj (<["options" := options]> o)) sender tr
  = onMessageListener E gcsm registry (VObj o) sender tr.
Proof.
  unfold onMessageListener, isMessengerMessage. simpl.
  rewrite !lookup_insert_ne by discriminate. reflexivity.
Qed.

(** C10.  With [getContentScriptMethod] bound as [getMethod(type)] binds:
    the listener's run on an envelope does not depend on what the
    envelope's [options] field holds; in the forward case it is the call
    [messenger(type, {}, target, ...args)] whose outcome is relayed; every
    message that call hands to the bus is the envelope made of [type],
    [args], [target] and the empty options; and with empty options
    [manageConnection] takes the awaited path of [manageMessage], never the
    notification one. *)
Theorem forward_rebinds_with_empty_options
    (E : Env) (registry : gmap string Method) (o : gmap string value)
    (options sender : value) (tr : trace) :
  let listener := onMessageListener E (getContentScriptMethod E registry) registry in
  let type := as_string (get (VObj o) "type") in
  let target := get (VObj o) "target" in
  let args := as_array (get (VObj o) "args") in
  listener (VObj (<["options" := options]> o)) sender tr = listener (VObj o) sender tr
  /\ (isMessengerMessage (VObj o) = true ->
      truthy target = true ->
      browser_tabs E = true ->
      listener (VObj o) sender tr =
        let (c, tr') :=
          messenger E registry type emptyOptions target args
            ((tr ++ [Log Debug ["Messenger:"; type; "received"]])
               ++ [Log Debug ["Messenger:"; type; "forwarded"]]) in
        (RetPromise
           (Fulfilled
              (VObj (<["__webext_messenger__" := __webext_messenger__]>
                       (wireBody E (async_call c))))),
         tr' ++ [Log Debug ["Messenger:"; type; "responding"]]))
  /\ appends (carries (makeMessage type args target emptyOptions))
       (messenger E registry type emptyOptions target args)
  /\ (forall send,
        manageConnection E type emptyOptions target send
        = (p <- manageMessage E type target send ;; ret (RetPromise p))).
Proof.
  intros listener type target args. subst listener.
  split; [apply onMessageListener_ignores_options|].
  split; [|split; [apply messenger_sends_its_envelope | reflexivity]].
  intros Hm Htarget Htabs.
  rewrite onMessageListener_forward_run by assumption.
  rewrite Htabs. unfold getContentScriptMethod, getMethod, bound_without_target.
  destruct (messenger E registry _ emptyOptions _ _ _) as [c tr']. reflexivity.
Qed.

Lemma forward_rebinds_with_empty_options_witness :
  let listener :=
    onMessageListener backgroundEnv
      (getContentScriptMethod backgroundEnv pingRegistry) pingRegistry in
  listener
    (VObj (<["options" := VObj {[ "isNotification" := VBool true ]}]> forwardFields))
    someSender []
  = listener forwardEnvelope someSender []
  /\ listener forwardEnvelope someSender [] =
       let (c, tr') :=
         messenger backgroundEnv pingRegistry "ping" emptyOptions tabTarget [VNum 7]
           [Log Debug ["Messenger:"; "ping"; "received"];
            Log Debug ["Messenger:"; "ping"; "forwarded"]] in
       (RetPromise
          (Fulfilled
             (VObj (<["__webext_messenger__" := __webext_messenger__]>
                      (wireBody backgroundEnv (async_call c))))),
        tr' ++ [Log Debug ["Messenger:"; "ping"; "responding"]]).
Proof.
  destruct (forward_rebinds_with_empty_options backgroundEnv pingRegistry
              forwardFields (VObj {[ "isNotification" := VBool true ]})
              someSender []) as (Hoptions & Hforward & _).
  split; [exact Hoptions|].
  exact (Hforward eq_refl eq_refl eq_refl).
Defined.

(** ** C2: notifications *)

(** C2 as stated fails.  In the background context a notifier for the
    page "background" is handled locally, before the notification flag is
    consulted (lines 199-207).  With no handler registered the call throws
    to its caller; with a handler that throws, so does the call; with a
    handler whose promise rejects, the caller is handed that rejected
    promise.  And in a context without the [browser] global, a notifier
    for a tab throws a ReferenceError to its caller (line 220). *)
Theorem notification_reaches_caller :
  getNotifier backgroundEnv ∅ "ping" (Some backgroundTarget) [] []
  = (Thrown (VErr (MessengerError "No handler registered locally for ping")), [])
  /\ getNotifier backgroundEnv failingRegistry "throw" (Some backgroundTarget) [] []
     = (Thrown (VErr (Error "handler failed")),
        [Log Warn ["throw"; "is being handled locally"]])
  /\ getNotifier backgroundEnv failingRegistry "reject" (Some backgroundTarget) [] []
     = (RetPromise (Rejected (VErr (Error "handler failed"))),
        [Log Warn ["reject"; "is being handled locally"]])
  /\ getNotifier bareEnv ∅ "ping" (Some tabTarget) [] []
     = (Thrown (VErr (mkError EReferenceError "browser is not defined")), []).
Proof. repeat split; reflexivity. Qed.

(** On every path that goes through the bus, a notification sends its
    message once, with attempt number 1, returns [undefined] and turns a
    failed delivery into one log line. *)
Lemma manageConnection_notification
    (E : Env) (type : string) (target : value) (send : nat -> M delivery)
    (tr : trace) :
  manageConnection E type (mkOptions (Some true)) target send tr =
    let (d, tr1) := send 1 tr in
    (RetValue VUndefined,
     match d with
     | Failed _ => tr1 ++ [Log Debug [type; "notification failed"]]
     | Answered _ => tr1
     end).
Proof.
  unfold manageConnection, bind, ret, debug, emit. simpl.
  destruct (send 1 tr) as [[response|msg] tr1]; reflexivity.
Qed.

(** C2, as amended.  A notification that goes through the bus, from a
    context with the [browser] global, to an object target that is not the
    page "background" seen from the background context: [messenger]
    returns [undefined], having logged the sending and handed its envelope
    to the bus once; "notification failed" is logged after that exactly
    when the host rejected that message.  No promise is returned and
    nothing is thrown, whatever the host answers. *)
Theorem notification_through_bus_is_silent
    (E : Env) (registry : gmap string Method) (type : string) (target : value)
    (args : list value) (tr : trace) (has_page : bool) :
  in_operator "page" target = inl has_page ->
  is_string_value (get target "page") "background" && isBackground E = false ->
  browser_in_globalThis E = true ->
  exists sending sent,
    messenger E registry type (mkOptions (Some true)) target args tr
    = (RetValue VUndefined,
       tr ++ [Log Debug sending; sent]
          ++ match host_answer E (tr ++ [Log Debug sending]) sent with
             | Failed _ => [Log Debug [type; "notification failed"]]
             | Answered _ => []
             end)
    /\ is_send sent = true
    /\ carries (makeMessage type args target (mkOptions (Some true))) sent.
Proof.
  intros Hin Hlocal Hbrowser. unfold messenger. rewrite Hin.
  assert (forall (send : nat -> M delivery) sending sent,
             (forall tr0,
                 send 1 tr0
                 = (host_answer E (tr0 ++ [Log Debug sending]) sent,
                    (tr0 ++ [Log Debug sending]) ++ [sent])) ->
             is_send sent = true ->
             carries (makeMessage type args target (mkOptions (Some true))) sent ->
             exists sending sent,
               manageConnection E type (mkOptions (Some true)) target send tr
               = (RetValue VUndefined,
                  tr ++ [Log Debug sending; sent]
                     ++ match host_answer E (tr ++ [Log Debug sending]) sent with
                        | Failed _ => [Log Debug [type; "notification failed"]]
                        | Answered _ => []
                        end)
               /\ is_send sent = true
               /\ carries (makeMessage type args target (mkOptions (Some true))) sent)
    as Hconn.
  { intros send sending sent Hsend Hsent Hcarries.
    rewrite manageConnection_notification, Hsend.
    exists sending, sent. split; [|auto].
    destruct (host_answer E (tr ++ [Log Debug sending]) sent);
      rewrite <- !app_assoc; reflexivity. }
  destruct has_page.
  - rewrite Hlocal.
    eapply (Hconn _ _ (RuntimeSend _));
      [intros tr0; reflexivity | reflexivity | reflexivity].
  - rewrite Hbrowser. change (negb true) with false. cbv iota.
    destruct (negb (browser_tabs E)).
    + eapply (Hconn _ _ (RuntimeSend _));
        [intros tr0; reflexivity | reflexivity | reflexivity].
    + eapply (Hconn _ _ (TabsSend _ _ _));
        [intros tr0; reflexivity | reflexivity | reflexivity].
Qed.

Lemma notification_through_bus_is_silent_witness :
  exists sending sent,
    messenger (failingEnv "boom") ∅ "ping" (mkOptions (Some true)) optionsTarget [] []
    = (RetValue VUndefined,
       [] ++ [Log Debug sending; sent]
          ++ match host_answer (failingEnv "boom")
                     ([] ++ [Log Debug sending]) sent with
             | Failed _ => [Log Debug ["ping"; "notification failed"]]
             | Answered _ => []
             end)
    /\ is_send sent = true
    /\ carries (makeMessage "ping" [] optionsTarget (mkOptions (Some true))) sent.
Proof.
  exact (notification_through_bus_is_silent (failingEnv "boom") ∅ "ping"
           optionsTarget [] [] true eq_refl eq_refl eq_refl).
Defined.

(** X2.  What the page "background" changes in the retry policy: a
    MessengerError raised by an attempt (target not found, conflict),
    which is retried for any other target, ends the loop at once. *)
Theorem background_protocol_failure_not_retried
    (E : Env) (type : string) (target : value) (send : nat -> M delivery)
    (n : nat) (tr tr1 : trace) (error : js_error) :
  get target "page" = VStr "background" ->
  attempt E type target send n tr = (inr error, tr1) ->
  instanceof_MessengerError error = true ->
  forall k,
    pRetry k (attempt E type target send) (onFailedAttempt E target) n tr
    = (inr error, tr1).
Proof.
  intros Hbg Hattempt Hcls k.
  rewrite pRetry_unfold, Hattempt.
  assert (String.eqb (err_message error) _errorTargetClosedEarly = false
          /\ mayRetry target error = false) as [Hclosed Hretry].
  { rewrite attempt_unfold in Hattempt.
    destruct (send n tr) as [[response|msg] tr0].
    - unfold classifyResponse in Hattempt.
      rewrite (in_operator_of_get_string "page" target "background") in Hattempt
        by (done || congruence).
      unfold mayRetry. rewrite Hbg.
      destruct (isMessengerResponse response); [discriminate|].
      destruct response; injection Hattempt as <- _; split; reflexivity.
    - injection Hattempt as <- _. discriminate. }
  destruct (err_cls error) eqn:Hc;
    try (rewrite onFailedAttempt_rethrows by assumption; reflexivity).
  reflexivity.
Qed.

Lemma background_protocol_failure_not_retried_witness :
  pRetry 3
    (attempt (silentEnv false false) "ping" backgroundTarget
       (sendMessageToRuntime (silentEnv false false) "ping" [] backgroundTarget
          emptyOptions))
    (onFailedAttempt (silentEnv false false) backgroundTarget) 1 []
  = (inr (MessengerError "The target [target] for ping was not found"),
     [Log Debug ["ping"; "sending message to runtime"; ""];
      RuntimeSend (makeMessage "ping" [] backgroundTarget emptyOptions)]).
Proof.
  exact (background_protocol_failure_not_retried (silentEnv false false) "ping"
           backgroundTarget
           (sendMessageToRuntime (silentEnv false false) "ping" [] backgroundTarget
              emptyOptions)
           1 [] _ _ eq_refl eq_refl eq_refl 3).
Defined.

(* ===================================================================== *)
(** * Further properties of the caller *)
(* ===================================================================== *)

(** ** Counting the messages handed to the bus *)

Lemma count_sends_app (a b : trace) :
  count_sends (a ++ b) = (count_sends a + count_sends b)%nat.
Proof. unfold count_sends. rewrite List.filter_app, length_app. reflexivity. Qed.

Lemma sendMessageToRuntime_hands_one (E : Env) (type : string)
    (args : list value) (target : value) (options : Options) (n : nat)
    (tr : trace) :
  exists evs,
    snd (sendMessageToRuntime E type args target options n tr) = tr ++ evs
    /\ count_sends evs = 1%nat.
Proof.
  exists [Log Debug [type; "sending message to runtime"; attemptLog n];
          RuntimeSend (makeMessage type args target options)].
  unfold sendMessageToRuntime, bind, debug, emit, sendToRuntime. simpl.
  rewrite <- app_assoc. auto.
Qed.

Lemma sendMessageToTab_hands_one (E : Env) (type : string)
    (args : list value) (target : value) (options : Options)
    (tabId frameId : value) (n : nat) (tr : trace) :
  exists evs,
    snd (sendMessageToTab E type args target options tabId frameId n tr) = tr ++ evs
    /\ count_sends evs = 1%nat.
Proof.
  exists [Log Debug [type; "sending message to tab"; "frame"; attemptLog n];
          TabsSend tabId (makeMessage type args target options)
            (VObj {[ "frameId" := frameId ]})].
  unfold sendMessageToTab, bind, debug, emit, sendToTab. simpl.
  rewrite <- app_assoc. auto.
Qed.

(** A transient host message is not the channel-closed-early one, and
    [onFailedAttempt] may retry it for every target. *)
Lemma isTransient_retryable (target : value) (message : string) :
  isTransient message = true ->
  String.eqb message _errorTargetClosedEarly = false
  /\ mayRetry target (Error message) = true.
Proof.
  unfold isTransient, mayRetry. simpl. intros Ht. split.
  - apply orb_prop in Ht as [Heq|Hprefix].
    + apply String.eqb_eq in Heq. subst message. reflexivity.
    + destruct message as [|a rest]; [discriminate|].
      change (String.prefix "No handlers registered in " (String a rest))
        with (if Ascii.ascii_dec (Ascii.ascii_of_nat 78) a
              then String.prefix "o handlers registered in " rest else false)
        in Hprefix.
      destruct (Ascii.ascii_dec (Ascii.ascii_of_nat 78) a) as [<-|]; [|discriminate].
      reflexivity.
  - apply orb_prop in Ht as [-> | ->]; rewrite ?orb_true_r; reflexivity.
Qed.

(** What [onFailedAttempt] leaves in the trace is at most a liveness query:
    no message. *)
Lemma onFailedAttempt_hands_none (E : Env) (target : value) (error : js_error)
    (tr : trace) :
  exists evs,
    snd (onFailedAttempt E target error tr) = tr ++ evs /\ count_sends evs = 0%nat.
Proof.
  unfold onFailedAttempt.
  destruct (String.eqb _ _); [exists []; simpl; rewrite app_nil_r; auto|].
  destruct (mayRetry target error); [|exists []; simpl; rewrite app_nil_r; auto].
  destruct (browser_tabs E && is_number (get target "tabId"));
    [|exists []; simpl; rewrite app_nil_r; auto].
  exists [TabExistsQuery (get target "tabId")]. auto.
Qed.

(** How [manageMessage] settles, from how the retry loop ended. *)
Lemma manageMessage_of_loop (E : Env) (type : string) (target : value)
    (send : nat -> M delivery) (tr tr1 : trace) (r : value + js_error) :
  pRetry (Nat.min default_retries (retries_in_time E))
    (attempt E type target send) (onFailedAttempt E target) 1 tr = (r, tr1) ->
  manageMessage E type target send tr =
    match r with
    | inr error =>
        (Rejected (VErr (if String.eqb (err_message error) _errorNonExistingTarget
                         then targetNotFound E type target else error)), tr1)
    | inl response =>
        match in_operator "error" response with
        | inr e => (Rejected (VErr e), tr1)
        | inl true =>
            (Rejected (deserializeError E (get response "error")),
             tr1 ++ [Log Debug [type; "replied with error"]])
        | inl false =>
            (Fulfilled (get response "value"),
             tr1 ++ [Log Debug [type; "replied successfully"]])
        end
    end.
Proof.
  intros Hloop. unfold manageMessage, retrying, bind, ret. rewrite Hloop.
  destruct r as [response|error].
  - destruct (in_operator "error" response) as [[|]|e]; reflexivity.
  - destruct (String.eqb _ _); reflexivity.
Qed.

(** The loop, when the host rejects the next [N] messages with a transient
    message and answers the one after with [response]. *)
Lemma loop_outlasts_transient_failures (E : Env) (type : string)
    (target : value) (send : nat -> M delivery) (response : value) :
  (forall n tr, exists evs, snd (send n tr) = tr ++ evs /\ count_sends evs = 1%nat) ->
  isMessengerResponse response = true ->
  (browser_tabs E && is_number (get target "tabId") = true ->
   forall tr, doesTabExist E tr (get target "tabId") = true) ->
  forall (N n k : nat) (tr : trace),
    (N <= k)%nat ->
    (forall i tr', (count_sends tr' < count_sends tr + N)%nat ->
                   exists m, fst (send i tr') = Failed m /\ isTransient m = true) ->
    (forall i tr', count_sends tr' = (count_sends tr + N)%nat ->
                   fst (send i tr') = Answered response) ->
    exists tr_end,
      pRetry k (attempt E type target send) (onFailedAttempt E target) n tr
      = (inl response, tr_end)
      /\ count_sends tr_end = (count_sends tr + S N)%nat.
Proof.
  intros Hone Hrec Htab N.
  induction N as [|N IH]; intros n k tr Hk Hfail Hanswer;
    rewrite pRetry_unfold, attempt_unfold;
    destruct (Hone n tr) as (evs & Htr1 & Hcount);
    destruct (send n tr) as [d tr1] eqn:Hsend; simpl in Htr1; subst tr1.
  - specialize (Hanswer n tr). rewrite Hsend in Hanswer. simpl in Hanswer.
    rewrite Hanswer by lia. unfold classifyResponse. rewrite Hrec.
    exists (tr ++ evs). split; [reflexivity|]. rewrite count_sends_app. lia.
  - destruct (Hfail n tr) as (m & Hm & Htransient); [lia|].
    rewrite Hsend in Hm. simpl in Hm. subst d.
    destruct (isTransient_retryable target m Htransient) as [Hclosed Hretry].
    cbn [err_cls Error].
    rewrite (onFailedAttempt_retries E target (Error m) _ Hclosed Hretry).
    destruct k as [|k]; [lia|].
    assert (forall tr2,
               count_sends tr2 = (count_sends tr + 1)%nat ->
               exists tr_end,
                 pRetry k (attempt E type target send) (onFailedAttempt E target)
                   (S n) tr2 = (inl response, tr_end)
                 /\ count_sends tr_end = (count_sends tr + S (S N))%nat) as Hnext.
    { intros tr2 Hcount2.
      destruct (IH (S n) k tr2) as (tr_end & Hloop & Hend).
      - lia.
      - intros i tr' Hlt. apply Hfail. lia.
      - intros i tr' Heq. apply Hanswer. lia.
      - exists tr_end. split; [exact Hloop | lia]. }
    destruct (browser_tabs E && is_number (get target "tabId")) eqn:Hcond.
    + rewrite (Htab eq_refl). apply Hnext.
      rewrite !count_sends_app, Hcount. unfold count_sends. simpl. lia.
    + apply Hnext. rewrite count_sends_app. lia.
Qed.

(** ** Retrying until the receiving end is there *)

(** X3.  Let every attempt hand one message to the bus, and let the host
    reject the next [N] messages with a transient message ("receiving end
    does not exist", or one starting with "No handlers registered in ")
    and answer the message after those with an object tagged
    [__webextMessenger: true].  If [N] is within the retry budget, and the
    tab is found alive whenever it is asked for, the call settles as that
    answer says, for every target, the page "background" included: it
    rejects with [deserializeError] of the [error] property when the
    answer has one, and otherwise fulfils with its [value] ([undefined]
    when it has none).  Exactly [N + 1] messages have been handed over. *)
Theorem transient_failures_are_outlasted
    (E : Env) (type : string) (target : value) (send : nat -> M delivery)
    (o : gmap string value) (N : nat) (tr : trace) :
  (forall n tr', exists evs,
      snd (send n tr') = tr' ++ evs /\ count_sends evs = 1%nat) ->
  o !! "__webextMessenger" = Some (VBool true) ->
  (browser_tabs E && is_number (get target "tabId") = true ->
   forall tr', doesTabExist E tr' (get target "tabId") = true) ->
  (N <= Nat.min default_retries (retries_in_time E))%nat ->
  (forall i tr', (count_sends tr' < count_sends tr + N)%nat ->
                 exists m, fst (send i tr') = Failed m /\ isTransient m = true) ->
  (forall i tr', count_sends tr' = (count_sends tr + N)%nat ->
                 fst (send i tr') = Answered (VObj o)) ->
  exists tr_end,
    manageMessage E type target send tr
    = (match o !! "error" with
       | Some e => Rejected (deserializeError E e)
       | None => Fulfilled (default VUndefined (o !! "value"))
       end, tr_end)
    /\ count_sends tr_end = (count_sends tr + S N)%nat.
Proof.
  intros Hone Htag Htab HN Hfail Hanswer.
  assert (isMessengerResponse (VObj o) = true) as Hrec.
  { unfold isMessengerResponse. simpl. rewrite Htag. reflexivity. }
  destruct (loop_outlasts_transient_failures E type target send (VObj o)
              Hone Hrec Htab N 1 _ tr HN Hfail Hanswer) as (tr1 & Hloop & Hcount).
  rewrite (manageMessage_of_loop E type target send tr tr1 _ Hloop). simpl.
  destruct (o !! "error") as [e|]; simpl;
    eexists; (split; [reflexivity|]);
    rewrite count_sends_app, Hcount; unfold count_sends; simpl; lia.
Qed.

Lemma transient_failures_are_outlasted_witness :
  exists tr_end,
    manageMessage warmingUpEnv "ping" backgroundTarget
      (sendMessageToRuntime warmingUpEnv "ping" [] backgroundTarget emptyOptions) []
    = (Fulfilled (VStr "pong"), tr_end)
    /\ count_sends tr_end = 2%nat.
Proof.
  assert (forall i tr',
             (count_sends tr' < count_sends [] + 1)%nat ->
             exists m,
               fst (sendMessageToRuntime warmingUpEnv "ping" [] backgroundTarget
                      emptyOptions i tr') = Failed m
               /\ isTransient m = true) as Hfail.
  { intros i tr' Hlt. exists _errorNonExistingTarget. split; [|reflexivity].
    unfold sendMessageToRuntime, bind, debug, emit, sendToRuntime. simpl.
    rewrite count_sends_app.
    replace (count_sends tr' + count_sends [Log Debug ["ping"; "sending message to runtime"; attemptLog i]])%nat
      with 0%nat by (unfold count_sends in *; simpl in *; lia).
    reflexivity. }
  assert (forall i tr',
             count_sends tr' = (count_sends [] + 1)%nat ->
             fst (sendMessageToRuntime warmingUpEnv "ping" [] backgroundTarget
                    emptyOptions i tr')
             = Answered (VObj (<["__webextMessenger" := VBool true]>
                                 {[ "value" := VStr "pong" ]}))) as Hanswer.
  { intros i tr' Heq.
    unfold sendMessageToRuntime, bind, debug, emit, sendToRuntime. simpl.
    rewrite count_sends_app.
    replace (count_sends tr' + count_sends [Log Debug ["ping"; "sending message to runtime"; attemptLog i]])%nat
      with 1%nat by (unfold count_sends in *; simpl in *; lia).
    reflexivity. }
  assert (1 <= Nat.min default_retries (retries_in_time warmingUpEnv))%nat as Hbudget
    by (vm_compute; lia).
  assert (browser_tabs warmingUpEnv && is_number (get backgroundTarget "tabId") = true ->
          forall tr', doesTabExist warmingUpEnv tr' (get backgroundTarget "tabId") = true)
    as Htab by discriminate.
  exact (transient_failures_are_outlasted warmingUpEnv "ping" backgroundTarget
           (sendMessageToRuntime warmingUpEnv "ping" [] backgroundTarget emptyOptions)
           (<["__webextMessenger" := VBool true]> {[ "value" := VStr "pong" ]})
           1 []
           (fun n tr' => sendMessageToRuntime_hands_one _ _ _ _ _ n tr')
           eq_refl Htab Hbudget Hfail Hanswer).
Defined.

(** ** Running out of retries *)

Lemma loop_exhausts (E : Env) (type : string) (target : value)
    (send : nat -> M delivery) (error : js_error) :
  (forall n tr, exists evs, snd (send n tr) = tr ++ evs /\ count_sends evs = 1%nat) ->
  (forall n tr, fst (attempt E type target send n tr) = inr error) ->
  err_cls error <> ETypeError ->
  String.eqb (err_message error) _errorTargetClosedEarly = false ->
  mayRetry target error = true ->
  (browser_tabs E && is_number (get target "tabId") = true ->
   forall tr, doesTabExist E tr (get target "tabId") = true) ->
  forall (k n : nat) (tr : trace),
    exists tr_end,
      pRetry k (attempt E type target send) (onFailedAttempt E target) n tr
      = (inr error, tr_end)
      /\ count_sends tr_end = (count_sends tr + S k)%nat.
Proof.
  intros Hone Hfails Hcls Hclosed Hretry Htab k.
  induction k as [|k IH]; intros n tr;
    rewrite pRetry_unfold;
    pose proof (Hfails n tr) as Hattempt;
    rewrite attempt_unfold in Hattempt |- *;
    destruct (Hone n tr) as (evs & Htr1 & Hcount);
    destruct (send n tr) as [d tr1]; simpl in Htr1, Hattempt; subst tr1;
    rewrite Hattempt;
    (destruct (err_cls error) eqn:Hc; [| |contradiction|]);
    rewrite (onFailedAttempt_retries E target error _ Hclosed Hretry);
    (destruct (browser_tabs E && is_number (get target "tabId")) eqn:Hcond;
     [rewrite (Htab eq_refl)|]).
  all: try (eexists; split; [reflexivity|];
            rewrite ?count_sends_app, Hcount; unfold count_sends; simpl; lia).
  all: match goal with
       | |- context [pRetry _ _ _ (S ?n') ?tr2] =>
           destruct (IH (S n') tr2) as (tr_end & Hloop & Hend);
           exists tr_end; split; [exact Hloop|];
           rewrite Hend, ?count_sends_app, Hcount; unfold count_sends; simpl; lia
       end.
Qed.

(** X4.  Let every attempt hand one message to the bus and fail with the
    same error, one that [onFailedAttempt] lets be retried (a transient
    host message, or a MessengerError for a target other than the page
    "background"), the tab being found alive whenever it is asked for.
    Then exactly [1 + min(10, retries that fit in time)] messages are
    handed over, and the call rejects with that error, or, when the
    error's message is the host's "receiving end does not exist", with
    the MessengerError "The target <target> for <type> was not found". *)
Theorem retries_are_exhausted
    (E : Env) (type : string) (target : value) (send : nat -> M delivery)
    (error : js_error) (tr : trace) :
  (forall n tr', exists evs,
      snd (send n tr') = tr' ++ evs /\ count_sends evs = 1%nat) ->
  (forall n tr', fst (attempt E type target send n tr') = inr error) ->
  err_cls error <> ETypeError ->
  err_message error <> _errorTargetClosedEarly ->
  mayRetry target error = true ->
  (browser_tabs E && is_number (get target "tabId") = true ->
   forall tr', doesTabExist E tr' (get target "tabId") = true) ->
  exists tr_end,
    manageMessage E type target send tr
    = (Rejected
         (VErr (if String.eqb (err_message error) _errorNonExistingTarget
                then MessengerError
                       ("The target " +:+ JSON_stringify E target +:+ " for "
                          +:+ type +:+ " was not found")
                else error)), tr_end)
    /\ count_sends tr_end
       = (count_sends tr + S (Nat.min default_retries (retries_in_time E)))%nat.
Proof.
  intros Hone Hfails Hcls Hclosed Hretry Htab.
  apply String.eqb_neq in Hclosed.
  destruct (loop_exhausts E type target send error Hone Hfails Hcls Hclosed Hretry
              Htab (Nat.min default_retries (retries_in_time E)) 1 tr)
    as (tr_end & Hloop & Hcount).
  exists tr_end. split; [|exact Hcount].
  rewrite (manageMessage_of_loop E type target send tr tr_end _ Hloop).
  reflexivity.
Qed.

Lemma retries_are_exhausted_witness :
  exists tr_end,
    manageMessage (silentEnv false false) "ping" optionsTarget
      (sendMessageToRuntime (silentEnv false false) "ping" [] optionsTarget
         emptyOptions) []
    = (Rejected
         (VErr (MessengerError "The target [target] for ping was not found")),
       tr_end)
    /\ count_sends tr_end = 4%nat.
Proof.
  assert (err_message (MessengerError "The target [target] for ping was not found")
          <> _errorTargetClosedEarly) as Hclosed by discriminate.
  assert (err_cls (MessengerError "The target [target] for ping was not found")
          <> ETypeError) as Hcls by discriminate.
  apply (retries_are_exhausted (silentEnv false false) "ping" optionsTarget
           (sendMessageToRuntime (silentEnv false false) "ping" [] optionsTarget
              emptyOptions)
           (MessengerError "The target [target] for ping was not found") []
           (fun n tr' => sendMessageToRuntime_hands_one _ _ _ _ _ n tr')
           (fun n tr' => eq_refl) Hcls Hclosed eq_refl).
  discriminate.
Defined.

(** ** A bound on what one call sends *)

Lemma sends_at_most_ret {A} (a : A) : sends_at_most 0 (ret a).
Proof. intros tr. exists []. simpl. rewrite app_nil_r. auto. Qed.

Lemma sends_at_most_mono {A} (c c' : nat) (m : M A) :
  (c <= c')%nat -> sends_at_most c m -> sends_at_most c' m.
Proof.
  intros Hle Hm tr. destruct (Hm tr) as (evs & Htr & Hc).
  exists evs. split; [exact Htr | lia].
Qed.

Lemma sends_at_most_bind {A B} (c1 c2 : nat) (m : M A) (k : A -> M B) :
  sends_at_most c1 m -> (forall a, sends_at_most c2 (k a)) ->
  sends_at_most (c1 + c2) (bind m k).
Proof.
  intros Hm Hk tr. unfold bind.
  destruct (Hm tr) as (evs1 & Htr1 & Hc1).
  destruct (m tr) as [a tr1]. simpl in Htr1. subst tr1.
  destruct (Hk a (tr ++ evs1)) as (evs2 & Htr2 & Hc2).
  exists (evs1 ++ evs2). rewrite Htr2, app_assoc. split; [reflexivity|].
  rewrite count_sends_app. lia.
Qed.

Lemma sends_at_most_then {A B} (c : nat) (m : M A) (k : A -> M B) :
  sends_at_most c m -> (forall a, sends_at_most 0 (k a)) ->
  sends_at_most c (bind m k).
Proof.
  intros Hm Hk. apply (sends_at_most_mono (c + 0)); [lia|].
  apply sends_at_most_bind; assumption.
Qed.

Lemma sends_at_most_log {A} (lvl : log_level) (parts : list string)
    (c : nat) (k : M A) :
  sends_at_most c k -> sends_at_most c (bind (emit (Log lvl parts)) (fun _ => k)).
Proof.
  intros Hk. apply (sends_at_most_bind 0 c); [|intros _; exact Hk].
  intros tr. exists [Log lvl parts]. split; [reflexivity|].
  unfold count_sends. simpl. lia.
Qed.

Lemma sends_at_most_pRetry (input : nat -> M (value + js_error))
    (onFailed : js_error -> M (option js_error)) :
  (forall n, sends_at_most 1 (input n)) ->
  (forall error, sends_at_most 0 (onFailed error)) ->
  forall k n, sends_at_most (S k) (pRetry k input onFailed n).
Proof.
  intros Hinput Hfailed k.
  induction k as [|k IH]; intros n; simpl.
  - apply (sends_at_most_bind 1 0); [apply Hinput|].
    intros [v|error]; [apply sends_at_most_ret|].
    destruct (err_cls error); try apply sends_at_most_ret;
      (apply (sends_at_most_bind 0 0); [apply Hfailed|]);
      intros [e|]; apply sends_at_most_ret.
  - apply (sends_at_most_bind 1 (S k)); [apply Hinput|].
    intros [v|error];
      [apply (sends_at_most_mono 0); [lia | apply sends_at_most_ret]|].
    destruct (err_cls error);
      try (apply (sends_at_most_mono 0); [lia | apply sends_at_most_ret]);
      (apply (sends_at_most_bind 0 (S k)); [apply Hfailed|]);
      intros [e|];
      try (apply (sends_at_most_mono 0); [lia | apply sends_at_most_ret]);
      apply IH.
Qed.

Lemma sends_at_most_manageConnection (E : Env) (type : string)
    (options : Options) (target : value) (send : nat -> M delivery) :
  (forall n, sends_at_most 1 (send n)) ->
  sends_at_most (S (Nat.min default_retries (retries_in_time E)))
    (manageConnection E type options target send).
Proof.
  intros Hsend. unfold manageConnection.
  destruct (negb (default false (isNotification options))).
  - apply sends_at_most_then; [|intros; apply sends_at_most_ret].
    unfold manageMessage. apply sends_at_most_then.
    + unfold retrying.
      apply sends_at_most_then; [|intros; apply sends_at_most_ret].
      apply sends_at_most_pRetry.
      * intros n. unfold attempt.
        apply (sends_at_most_bind 1 0); [apply Hsend|].
        intros; apply sends_at_most_ret.
      * intros error tr.
        destruct (onFailedAttempt_hands_none E target error tr) as (evs & Htr & Hc).
        exists evs. split; [exact Htr | lia].
    + intros [response|error]; [|apply sends_at_most_ret].
      destruct (in_operator "error" response) as [[|]|e];
        try apply sends_at_most_ret;
        apply sends_at_most_log; apply sends_at_most_ret.
  - apply (sends_at_most_mono (1 + 0)); [lia|].
    apply (sends_at_most_bind 1 0); [apply Hsend|].
    intros [response|msg];
      (apply (sends_at_most_bind 0 0); [|intros; apply sends_at_most_ret]).
    + apply sends_at_most_ret.
    + intros tr. exists [Log Debug [type; "notification failed"]].
      split; [reflexivity|]. unfold count_sends. simpl. lia.
Qed.

(** X5.  Whatever the host does, one call of [messenger] only appends to
    the trace, and among what it appends there are at most
    [1 + min(10, retries that fit in time)] messages for the bus, hence
    never more than eleven. *)
Theorem messenger_sends_are_bounded
    (E : Env) (registry : gmap string Method) (type : string)
    (options : Options) (target : value) (args : list value) :
  sends_at_most (S (Nat.min default_retries (retries_in_time E)))
    (messenger E registry type options target args)
  /\ sends_at_most 11 (messenger E registry type options target args).
Proof.
  assert (sends_at_most (S (Nat.min default_retries (retries_in_time E)))
            (messenger E registry type options target args)) as Hbound.
  { assert (forall n, sends_at_most 1
                        (sendMessageToRuntime E type args target options n)) as Hrt.
    { intros n tr.
      destruct (sendMessageToRuntime_hands_one E type args target options n tr)
        as (evs & Htr & Hc).
      exists evs. split; [exact Htr | lia]. }
    unfold messenger.
    destruct (in_operator "page" target) as [[|]|e].
    - destruct (is_string_value (get target "page") "background" && isBackground E).
      + apply (sends_at_most_mono 0); [lia|].
        destruct (registry !! type); [|apply sends_at_most_ret].
        apply sends_at_most_log. apply sends_at_most_ret.
      + apply sends_at_most_manageConnection. exact Hrt.
    - destruct (negb (browser_in_globalThis E));
        [apply (sends_at_most_mono 0); [lia | apply sends_at_most_ret]|].
      destruct (negb (browser_tabs E)).
      + apply sends_at_most_manageConnection. exact Hrt.
      + apply sends_at_most_manageConnection. intros n tr.
        destruct (sendMessageToTab_hands_one E type args target options
                    (get target "tabId")
                    match get target "frameId" with
                    | VUndefined => VNum 0
                    | v => v
                    end n tr) as (evs & Htr & Hc).
        exists evs. split; [exact Htr | lia].
    - apply (sends_at_most_mono 0); [lia | apply sends_at_most_ret]. }
  split; [exact Hbound|].
  eapply sends_at_most_mono; [|exact Hbound].
  unfold default_retries. lia.
Qed.

(** ** Which primitive a call goes through *)

Lemma appends_manageConnection_any (P : event -> Prop) (E : Env)
    (type : string) (options : Options) (target : value)
    (send : nat -> M delivery) :
  (forall lvl parts, P (Log lvl parts)) ->
  (browser_tabs E && is_number (get target "tabId") = true ->
   P (TabExistsQuery (get target "tabId"))) ->
  (forall n, appends P (send n)) ->
  appends P (manageConnection E type options target send).
Proof.
  intros Hlog Hquery Hsend. unfold manageConnection.
  destruct (negb (default false (isNotification options))).
  - apply appends_bind; [|intros; apply appends_ret].
    unfold manageMessage. apply appends_bind.
    + unfold retrying. apply appends_bind; [|intros; apply appends_ret].
      apply appends_pRetry.
      * intros n. unfold attempt. apply appends_bind; [apply Hsend|].
        intros; apply appends_ret.
      * intros error. unfold onFailedAttempt.
        destruct (String.eqb _ _); [apply appends_ret|].
        destruct (mayRetry target error); [|apply appends_ret].
        destruct (browser_tabs E && is_number (get target "tabId")) eqn:Hcond;
          [|apply appends_ret].
        apply appends_bind; [|intros; apply appends_ret].
        intros tr. exists [TabExistsQuery (get target "tabId")].
        split; [reflexivity|]. repeat constructor. apply Hquery. reflexivity.
    + intros [response|error]; [|apply appends_ret].
      destruct (in_operator "error" response) as [[|]|e];
        try apply appends_ret;
        (apply appends_bind; [apply appends_emit; apply Hlog|]);
        intros; apply appends_ret.
  - apply appends_bind; [apply Hsend|].
    intros [response|msg]; (apply appends_bind; [|intros; apply appends_ret]);
      [apply appends_ret | apply appends_emit; apply Hlog].
Qed.

Lemma appends_messenger_any (P : event -> Prop) (E : Env)
    (registry : gmap string Method) (type : string) (options : Options)
    (target : value) (args : list value) :
  (forall lvl parts, P (Log lvl parts)) ->
  (browser_tabs E && is_number (get target "tabId") = true ->
   P (TabExistsQuery (get target "tabId"))) ->
  (in_operator "page" target = inl true \/ browser_tabs E = false ->
   P (RuntimeSend (makeMessage type args target options))) ->
  (in_operator "page" target = inl false -> browser_tabs E = true ->
   P (TabsSend (get target "tabId") (makeMessage type args target options)
        (VObj {[ "frameId" := match get target "frameId" with
                               | VUndefined => VNum 0
                               | v => v
                               end ]}))) ->
  appends P (messenger E registry type options target args).
Proof.
  intros Hlog Hquery Hruntime Htab.
  assert (forall n,
             P (RuntimeSend (makeMessage type args target options)) ->
             appends P (sendMessageToRuntime E type args target options n)) as Hrt.
  { intros n HP. unfold sendMessageToRuntime, debug.
    apply appends_bind; [apply appends_emit; apply Hlog|]. intros _ tr.
    exists [RuntimeSend (makeMessage type args target options)].
    split; [reflexivity | repeat constructor; exact HP]. }
  unfold messenger.
  destruct (in_operator "page" target) as [[|]|e] eqn:Hin; [| |apply appends_ret].
  - destruct (is_string_value (get target "page") "background" && isBackground E).
    + destruct (registry !! type); [|apply appends_ret].
      apply appends_bind; [apply appends_emit; apply Hlog|].
      intros; apply appends_ret.
    + apply appends_manageConnection_any; try assumption.
      intros n. apply Hrt. apply Hruntime. left. reflexivity.
  - destruct (negb (browser_in_globalThis E)); [apply appends_ret|].
    destruct (negb (browser_tabs E)) eqn:Htabs.
    + apply negb_true_iff in Htabs.
      apply appends_manageConnection_any; try assumption.
      intros n. apply Hrt. apply Hruntime. right. exact Htabs.
    + apply negb_false_iff in Htabs.
      apply appends_manageConnection_any; try assumption.
      intros n. unfold sendMessageToTab, debug.
      apply appends_bind; [apply appends_emit; apply Hlog|]. intros _ tr.
      eexists [TabsSend _ _ _].
      split; [reflexivity | repeat constructor; apply Htab; [reflexivity|exact Htabs]].
Qed.

(** X6.  Where the messages of a call go.  A target with a [page]
    property, and any target in a context without [browser.tabs], is only
    ever addressed through the runtime: no message goes to a tab.  A
    target without [page] in a context with [browser.tabs] is only ever
    addressed through that tab: each message goes to [target.tabId] with
    the options [{ frameId }], where a missing [frameId] is 0, and none
    goes through the runtime.  And unless [browser.tabs] is there and
    [target.tabId] is a number, the liveness of a tab is never asked
    for. *)
Theorem messenger_routing
    (E : Env) (registry : gmap string Method) (type : string)
    (options : Options) (target : value) (args : list value) :
  (in_operator "page" target = inl true \/ browser_tabs E = false ->
   appends not_tab_send (messenger E registry type options target args))
  /\ (in_operator "page" target = inl false -> browser_tabs E = true ->
      appends
        (tab_send_to (get target "tabId")
           match get target "frameId" with VUndefined => VNum 0 | v => v end)
        (messenger E registry type options target args))
  /\ (browser_tabs E && is_number (get target "tabId") = false ->
      appends no_liveness_query (messenger E registry type options target args)).
Proof.
  split; [|split].
  - intros Hroute. apply appends_messenger_any; try (intros; exact I).
    intros Hin Htabs. destruct Hroute as [Hpage|Hnone]; congruence.
  - intros Hin Htabs. apply appends_messenger_any; try (intros; exact I).
    + intros [Hpage|Hnone]; congruence.
    + intros _ _. split; reflexivity.
  - intros Hcond. apply appends_messenger_any; try (intros; exact I).
    intros Hcond'. congruence.
Qed.

Lemma messenger_routing_witness :
  appends (tab_send_to (VNum 1) (VNum 0))
    (messenger closedTabEnv ∅ "ping" emptyOptions tabTarget [])
  /\ appends not_tab_send
       (messenger closedTabEnv ∅ "ping" emptyOptions optionsTarget []).
Proof.
  destruct (messenger_routing closedTabEnv ∅ "ping" emptyOptions tabTarget [])
    as (_ & Htab & _).
  destruct (messenger_routing closedTabEnv ∅ "ping" emptyOptions optionsTarget [])
    as (Hruntime & _ & _).
  split; [exact (Htab eq_refl eq_refl) | exact (Hruntime (or_introl eq_refl))].
Defined.

(** ** Calls that are not handled locally settle through a promise *)

(** X7.  A call bound by [getMethod], from a context with the [browser]
    global, to an object target that is not the page "background" seen
    from the background context, returns a promise whatever the host does:
    a failed delivery, a conflict, an exhausted budget are rejections of
    that promise, never exceptions thrown at the caller, and the call
    never returns a plain value. *)
Theorem getMethod_returns_a_promise
    (E : Env) (registry : gmap string Method) (type : string) (target : value)
    (args : list value) (tr : trace) (has_page : bool) :
  in_operator "page" target = inl has_page ->
  is_string_value (get target "page") "background" && isBackground E = false ->
  browser_in_globalThis E = true ->
  (exists p, fst (getMethod E registry type (Some target) args tr) = RetPromise p)
  /\ (exists p, fst (getMethod E registry type None (target :: args) tr)
                = RetPromise p).
Proof.
  intros Hin Hlocal Hbrowser.
  assert (exists p, fst (messenger E registry type emptyOptions target args tr)
                    = RetPromise p) as Hpromise.
  { unfold messenger. rewrite Hin.
    assert (forall send,
               exists p,
                 fst (manageConnection E type emptyOptions target send tr)
                 = RetPromise p) as Hconn.
    { intros send. unfold manageConnection, bind, ret. simpl.
      destruct (manageMessage E type target send tr) as [p tr']. eauto. }
    destruct has_page;
      [rewrite Hlocal
      |rewrite Hbrowser; change (negb true) with false; cbv iota;
       destruct (negb (browser_tabs E))];
      apply Hconn. }
  split; exact Hpromise.
Qed.

Lemma getMethod_returns_a_promise_witness :
  exists p,
    fst (getMethod (failingEnv "boom") ∅ "ping" (Some optionsTarget) [] [])
    = RetPromise p.
Proof.
  exact (proj1 (getMethod_returns_a_promise (failingEnv "boom") ∅ "ping"
                  optionsTarget [] [] true eq_refl eq_refl eq_refl)).
Defined.

(** ** A target that is not an object *)

(** X8.  When the target is not an object ([undefined], [null], a
    boolean, a number or a string), [messenger] throws a TypeError at its
    caller and leaves no trace, whatever the options: a notifier throws
    too.  In particular a method bound without a target and called with no
    argument at all throws a TypeError. *)
Theorem messenger_throws_without_object_target
    (E : Env) (registry : gmap string Method) (type : string)
    (options : Options) (target : value) (args : list value) (tr : trace) :
  isObject target = false ->
  (exists message,
      messenger E registry type options target args tr
      = (Thrown (VErr (mkError ETypeError message)), tr))
  /\ (exists message,
         getMethod E registry type None [] tr
         = (Thrown (VErr (mkError ETypeError message)), tr))
  /\ (exists message,
         getNotifier E registry type None [] tr
         = (Thrown (VErr (mkError ETypeError message)), tr)).
Proof.
  intros Hobj. split; [|split].
  - unfold messenger. destruct target; try discriminate; simpl; eauto.
  - simpl. unfold messenger. simpl. eauto.
  - simpl. unfold messenger. simpl. eauto.
Qed.

Lemma messenger_throws_without_object_target_witness :
  exists message,
    messenger backgroundEnv pingRegistry "ping" (mkOptions (Some true))
      (VStr "background") [] []
    = (Thrown (VErr (mkError ETypeError message)), []).
Proof.
  exact (proj1 (messenger_throws_without_object_target backgroundEnv pingRegistry
                  "ping" (mkOptions (Some true)) (VStr "background") [] []
                  eq_refl)).
Defined.

(** ** The envelope and the two recognizers *)

(** X9.  What [makeMessage] puts into an envelope is what reading its
    properties gives back: the method under [type], the arguments under
    [args], the target untouched under [target], [true] under
    [__webextMessenger], and under [options] an object whose
    [isNotification] is the flag of the call, or missing when the call
    has none; the envelope has no other property.  And every message a
    call of [messenger] hands to the bus is that envelope. *)
Theorem envelope_round_trip
    (E : Env) (registry : gmap string Method) (type : string)
    (options : Options) (target : value) (args : list value) :
  let envelope := makeMessage type args target options in
  appends (carries envelope) (messenger E registry type options target args)
  /\ get envelope "type" = VStr type
  /\ get envelope "args" = VArr args
  /\ get envelope "target" = target
  /\ get envelope "__webextMessenger" = VBool true
  /\ get (get envelope "options") "isNotification"
     = match isNotification options with
       | Some flag => VBool flag
       | None => VUndefined
       end
  /\ (forall k,
         k <> "__webextMessenger" -> k <> "type" -> k <> "args" ->
         k <> "target" -> k <> "options" ->
         get envelope k = VUndefined).
Proof.
  intros envelope. subst envelope.
  split; [apply messenger_sends_its_envelope|].
  repeat (split; [reflexivity|]).
  split.
  - destruct options as [[flag|]]; reflexivity.
  - intros k H1 H2 H3 H4 H5. unfold makeMessage. simpl.
    rewrite !lookup_insert_ne by congruence. reflexivity.
Qed.

(** X10.  What the two recognizers accept.  [isMessengerResponse] accepts
    exactly the plain objects whose own [__webextMessenger] is [true];
    [isMessengerMessage] accepts exactly the plain objects whose [type] is
    a string, whose [__webext_messenger__] is [true] and whose [args] is
    an array.  Neither accepts an array, an Error, [null], [undefined] or
    another primitive, and a tag that is merely truthy (1, a string) does
    not pass. *)
Theorem recognizers_accept
    (v : value) :
  (isMessengerResponse v = true <->
   exists o, v = VObj o /\ o !! "__webextMessenger" = Some (VBool true))
  /\ (isMessengerMessage v = true <->
      exists o type args,
        v = VObj o /\ o !! "type" = Some (VStr type)
        /\ o !! "__webext_messenger__" = Some (VBool true)
        /\ o !! "args" = Some (VArr args)).
Proof.
  split; [|apply isMessengerMessage_shape].
  unfold isMessengerResponse. split.
  - intros H. apply andb_prop in H as [Hobj Htag].
    destruct v as [| | | | | |o|e]; simpl in *; try discriminate.
    + exists o. split; [reflexivity|].
      destruct (o !! "__webextMessenger") as [[| |[|]| | | | |]|];
        simpl in Htag; try discriminate. reflexivity.
  - intros (o & -> & Htag). simpl. rewrite Htag. reflexivity.
Qed.

(* ===================================================================== *)
(** * Further properties of the receiver *)
(* ===================================================================== *)

(** ** What the listener can complete with *)

(** X11.  Whatever the payload, the registry, the handlers and the
    method used for forwarding do, the listener completes in one of three
    ways.  It returns [undefined]; or, only for a recognized envelope with
    a truthy target in a context without [browser.tabs], it throws the
    "sent to wrong context" MessengerError; or, only for a recognized
    envelope, it returns a promise that is fulfilled with an object
    carrying [__webext_messenger__: true] and either the [value] or the
    serialized [error] of the call.  The promise it returns is never
    rejected: a handler that throws or rejects becomes an [error] reply. *)
Theorem onMessageListener_completions
    (E : Env) (gcsm : string -> value -> list value -> M completion)
    (registry : gmap string Method) (message sender : value) (tr : trace) :
  let c := fst (onMessageListener E gcsm registry message sender tr) in
  c = RetValue VUndefined
  \/ (c = Thrown (VErr (wrongContext E (as_string (get message "type"))
                          (get message "target")))
      /\ isMessengerMessage message = true
      /\ truthy (get message "target") = true
      /\ browser_tabs E = false)
  \/ (isMessengerMessage message = true
      /\ ((exists v,
              c = RetPromise
                    (Fulfilled
                       (VObj (<["__webext_messenger__" := VBool true]>
                                {[ "value" := v ]}))))
          \/ (exists e,
                 c = RetPromise
                       (Fulfilled
                          (VObj (<["__webext_messenger__" := VBool true]>
                                   {[ "error" := serializeError E e ]})))))).
Proof.
  intros c. subst c.
  assert (forall type p tr0,
             (exists v,
                 fst (respond E type p tr0)
                 = RetPromise
                     (Fulfilled
                        (VObj (<["__webext_messenger__" := VBool true]>
                                 {[ "value" := v ]}))))
             \/ (exists e,
                    fst (respond E type p tr0)
                    = RetPromise
                        (Fulfilled
                           (VObj (<["__webext_messenger__" := VBool true]>
                                    {[ "error" := serializeError E e ]})))))
    as Hrespond.
  { intros type [v|e] tr0; [left|right]; eexists; reflexivity. }
  destruct (isMessengerMessage message) eqn:Hm.
  2: { left. unfold onMessageListener. rewrite Hm. reflexivity. }
  destruct (truthy (get message "target")) eqn:Htarget.
  - rewrite onMessageListener_forward_run by assumption.
    destruct (browser_tabs E) eqn:Htabs.
    + destruct (gcsm _ _ _ _) as [c tr0].
      right. right. split; [reflexivity | apply Hrespond].
    + right. left. auto.
  - assert (onMessageListener E gcsm registry message sender tr
            = match registry !! as_string (get message "type") with
              | Some localHandler =>
                  respond E (as_string (get message "type"))
                    (async_call
                       (localHandler (VObj {[ "trace" := VArr [sender] ]})
                          (as_array (get message "args"))))
                    ((tr ++ [Log Debug ["Messenger:"; as_string (get message "type");
                                        "received"]])
                       ++ [Log Debug ["Messenger:"; as_string (get message "type");
                                      "will be handled here"]])
              | None =>
                  (RetValue VUndefined,
                   (tr ++ [Log Debug ["Messenger:"; as_string (get message "type");
                                      "received"]])
                     ++ [Log Warn ["Messenger:"; as_string (get message "type");
                                   "ignored, can't be handled here"]])
              end) as ->.
    { unfold onMessageListener. rewrite Hm. simpl.
      unfold bind at 1. unfold console_debug at 1. unfold emit at 1.
      rewrite Htarget. destruct (registry !! _); reflexivity. }
    destruct (registry !! _); [|left; reflexivity].
    right. right. split; [reflexivity | apply Hrespond].
Qed.

(** ** Local dispatch *)

(** The run of the listener on a recognized envelope with a falsy target
    and a registered method. *)
Lemma onMessageListener_local_run
    (E : Env) (gcsm : string -> value -> list value -> M completion)
    (registry : gmap string Method) (message sender : value) (tr : trace)
    (handler : Method) :
  isMessengerMessage message = true ->
  truthy (get message "target") = false ->
  registry !! as_string (get message "type") = Some handler ->
  onMessageListener E gcsm registry message sender tr
  = (RetPromise
       (Fulfilled
          (VObj (<["__webext_messenger__" := VBool true]>
                   (wireBody E
                      (async_call
                         (handler (VObj {[ "trace" := VArr [sender] ]})
                            (as_array (get message "args")))))))),
     tr ++ [Log Debug ["Messenger:"; as_string (get message "type"); "received"];
            Log Debug ["Messenger:"; as_string (get message "type");
                       "will be handled here"];
            Log Debug ["Messenger:"; as_string (get message "type"); "responding"]]).
Proof.
  intros Hm Htarget Hreg.
  unfold onMessageListener. rewrite Hm. simpl.
  unfold bind at 1. unfold console_debug at 1. unfold emit at 1.
  rewrite Htarget, Hreg.
  unfold respond. unfold bind, console_debug, emit, ret.
  rewrite <- !app_assoc. reflexivity.
Qed.

(** X12.  A recognized envelope without a (truthy) target whose method is
    registered is handled in the receiving context: the handler is applied
    to the envelope's arguments with [{ trace: [sender] }] for [this], the
    forwarding method is not called and nothing is handed to the bus, and
    the listener answers with the tagged [value] the handler returned or
    fulfilled, or the tagged serialized [error] it threw or rejected
    with; three lines are logged. *)
Theorem onMessageListener_handles_locally
    (E : Env) (gcsm : string -> value -> list value -> M completion)
    (registry : gmap string Method) (message sender : value) (tr : trace)
    (handler : Method) :
  isMessengerMessage message = true ->
  truthy (get message "target") = false ->
  registry !! as_string (get message "type") = Some handler ->
  let type := as_string (get message "type") in
  let outcome :=
    handler (VObj {[ "trace" := VArr [sender] ]}) (as_array (get message "args")) in
  onMessageListener E gcsm registry message sender tr
  = (RetPromise
       (Fulfilled
          (VObj (<["__webext_messenger__" := VBool true]>
                   match outcome with
                   | RetValue v | RetPromise (Fulfilled v) => {[ "value" := v ]}
                   | Thrown e | RetPromise (Rejected e) =>
                       {[ "error" := serializeError E e ]}
                   end))),
     tr ++ [Log Debug ["Messenger:"; type; "received"];
            Log Debug ["Messenger:"; type; "will be handled here"];
            Log Debug ["Messenger:"; type; "responding"]]).
Proof.
  intros Hm Htarget Hreg type outcome. subst type outcome.
  rewrite (onMessageListener_local_run E gcsm registry message sender tr handler)
    by assumption.
  destruct (handler _ _) as [v|[v|e]|e]; reflexivity.
Qed.

Lemma onMessageListener_handles_locally_witness :
  onMessageListener backgroundEnv (fun _ _ _ => ret (RetValue VNull))
    failingRegistry (receiverEnvelope "throw" [VNum 1] ∅) someSender []
  = (RetPromise
       (Fulfilled
          (VObj (<["__webext_messenger__" := VBool true]>
                   {[ "error" := VErr (Error "handler failed") ]}))),
     [Log Debug ["Messenger:"; "throw"; "received"];
      Log Debug ["Messenger:"; "throw"; "will be handled here"];
      Log Debug ["Messenger:"; "throw"; "responding"]]).
Proof.
  exact (onMessageListener_handles_locally backgroundEnv
           (fun _ _ _ => ret (RetValue VNull)) failingRegistry
           (receiverEnvelope "throw" [VNum 1] ∅) someSender [] throwing
           eq_refl eq_refl eq_refl).
Defined.

(** ** Registration that goes through, and what a failed one leaves *)

(** The loop over names that are free and distinct stores them all. *)
Lemma registerEach_app_fresh (before rest : list (string * Method)) :
  forall (registry : gmap string Method) (tr : trace),
    NoDup before.*1 ->
    (forall k, k ∈ before.*1 -> registry !! k = None) ->
    registerEach (before ++ rest) registry tr
    = registerEach rest (list_to_map before ∪ registry)
        (tr ++ registered_log before).
Proof.
  induction before as [|[t m] before IH]; intros registry tr Hnodup Hfree; simpl.
  - rewrite (left_id_L ∅ (∪)), app_nil_r. reflexivity.
  - apply NoDup_cons in Hnodup as [Hfresh Hnodup].
    rewrite bool_decide_eq_false_2.
    2: { rewrite Hfree by apply list_elem_of_here.
         intros [x Hx]. discriminate. }
    unfold bind, console_debug, emit.
    rewrite IH; [|exact Hnodup|].
    + rewrite <- app_assoc. simpl. f_equal.
      rewrite <- insert_union_r by (apply not_elem_of_list_to_map_1; exact Hfresh).
      rewrite insert_union_l. reflexivity.
    + intros k Hk. rewrite lookup_insert_ne.
      * apply Hfree. apply list_elem_of_further. exact Hk.
      * intros ->. contradiction.
Qed.

Lemma registerMethods_fresh_run (E : Env) (ctx : Context)
    (methods : list (string * Method)) (tr : trace) :
  NoDup methods.*1 ->
  (forall k, k ∈ methods.*1 -> handlers ctx !! k = None) ->
  registerMethods E ctx methods tr
  = (if browser_in_globalThis E then RetValue VUndefined
     else Thrown (VErr (Error "`webext-messenger` requires `webextension")),
     mkContext (list_to_map methods ∪ handlers ctx)
       (if browser_in_globalThis E then true else listening ctx),
     tr ++ registered_log methods).
Proof.
  intros Hnodup Hfree. unfold registerMethods, bind, ret.
  rewrite <- (app_nil_r methods) at 1.
  rewrite registerEach_app_fresh by assumption. simpl.
  destruct (browser_in_globalThis E); reflexivity.
Qed.

(** X13.  Where the [browser] global is there, registering methods whose
    names are free in the registry returns [undefined], arms the listener,
    logs one "Registered" line per method in the order of the entries, and
    leaves the registry holding each of the methods under its name and
    whatever it held before under the other names. *)
Theorem registerMethods_stores_all
    (E : Env) (ctx : Context) (methods : list (string * Method)) (tr : trace) :
  browser_in_globalThis E = true ->
  NoDup methods.*1 ->
  (forall k, k ∈ methods.*1 -> handlers ctx !! k = None) ->
  exists ctx',
    registerMethods E ctx methods tr
    = (RetValue VUndefined, ctx', tr ++ registered_log methods)
    /\ listening ctx' = true
    /\ (forall k h, (k, h) ∈ methods -> handlers ctx' !! k = Some h)
    /\ (forall k, k ∉ methods.*1 -> handlers ctx' !! k = handlers ctx !! k).
Proof.
  intros Hbrowser Hnodup Hfree.
  exists (mkContext (list_to_map methods ∪ handlers ctx) true).
  rewrite registerMethods_fresh_run, Hbrowser by assumption.
  split; [reflexivity|]. split; [reflexivity|]. simpl. split.
  - intros k h Hin. apply lookup_union_Some_l.
    apply elem_of_list_to_map_1; assumption.
  - intros k Hout. apply lookup_union_r.
    apply not_elem_of_list_to_map_1. exact Hout.
Qed.

Lemma registerMethods_stores_all_witness :
  exists ctx',
    registerMethods backgroundEnv (mkContext pingRegistry false) twoMethods []
    = (RetValue VUndefined, ctx',
       [Log Debug ["Messenger: Registered"; "pong"];
        Log Debug ["Messenger: Registered"; "echo"]])
    /\ listening ctx' = true
    /\ (forall k h, (k, h) ∈ twoMethods -> handlers ctx' !! k = Some h)
    /\ (forall k, k ∉ twoMethods.*1 -> handlers ctx' !! k = pingRegistry !! k).
Proof.
  assert (NoDup twoMethods.*1) as Hnodup.
  { compute_done. }
  assert (forall k, k ∈ twoMethods.*1 ->
                    handlers (mkContext pingRegistry false) !! k = None) as Hfree.
  { intros k Hk. simpl in Hk.
    apply elem_of_cons in Hk as [->|Hk]; [reflexivity|].
    apply elem_of_cons in Hk as [->|Hk]; [reflexivity|].
    apply elem_of_nil in Hk. destruct Hk. }
  exact (registerMethods_stores_all backgroundEnv (mkContext pingRegistry false)
           twoMethods [] eq_refl Hnodup Hfree).
Defined.

(** X14.  A registration that fails is not undone.  Without the [browser]
    global, registering free names throws the Error "`webext-messenger`
    requires `webextension" only after all the methods have been stored;
    the listener is not armed.  And when the entries begin with free,
    distinct names followed by a name that is taken (in the registry, or
    by one of those entries), the call throws "Handler already set for
    <that name>" with the entries before it stored and logged, the ones
    after it never looked at, and the listener not armed. *)
Theorem registerMethods_failure_keeps_stored
    (E : Env) (ctx : Context) (before after : list (string * Method))
    (type : string) (method : Method) (tr : trace) :
  NoDup before.*1 ->
  (forall k, k ∈ before.*1 -> handlers ctx !! k = None) ->
  (browser_in_globalThis E = false ->
   registerMethods E ctx before tr
   = (Thrown (VErr (Error "`webext-messenger` requires `webextension")),
      mkContext (list_to_map before ∪ handlers ctx) (listening ctx),
      tr ++ registered_log before))
  /\ (is_Some (handlers ctx !! type) \/ type ∈ before.*1 ->
      registerMethods E ctx (before ++ (type, method) :: after) tr
      = (Thrown (VErr (MessengerError ("Handler already set for " +:+ type))),
         mkContext (list_to_map before ∪ handlers ctx) (listening ctx),
         tr ++ registered_log before)).
Proof.
  intros Hnodup Hfree. split.
  - intros Hbrowser. rewrite registerMethods_fresh_run, Hbrowser by assumption.
    reflexivity.
  - intros Htaken. unfold registerMethods, bind, ret.
    rewrite registerEach_app_fresh by assumption. simpl.
    rewrite bool_decide_eq_true_2; [reflexivity|].
    apply lookup_union_is_Some.
    destruct Htaken as [Hreg|Hin]; [right; exact Hreg|left].
    apply list_elem_of_fmap in Hin as ([k h] & -> & Hin).
    exists h. apply elem_of_list_to_map_1; assumption.
Qed.

Lemma registerMethods_failure_keeps_stored_witness :
  registerMethods bareEnv (mkContext pingRegistry false) twoMethods []
  = (Thrown (VErr (Error "`webext-messenger` requires `webextension")),
     mkContext (list_to_map twoMethods ∪ pingRegistry) false,
     [Log Debug ["Messenger: Registered"; "pong"];
      Log Debug ["Messenger: Registered"; "echo"]])
  /\ registerMethods backgroundEnv (mkContext pingRegistry false)
       (twoMethods ++ [("ping", ping); ("late", pong)]) []
     = (Thrown (VErr (MessengerError "Handler already set for ping")),
        mkContext (list_to_map twoMethods ∪ pingRegistry) false,
        [Log Debug ["Messenger: Registered"; "pong"];
         Log Debug ["Messenger: Registered"; "echo"]]).
Proof.
  assert (NoDup twoMethods.*1) as Hnodup.
  { compute_done. }
  assert (forall k, k ∈ twoMethods.*1 ->
                    handlers (mkContext pingRegistry false) !! k = None) as Hfree.
  { intros k Hk. simpl in Hk.
    apply elem_of_cons in Hk as [->|Hk]; [reflexivity|].
    apply elem_of_cons in Hk as [->|Hk]; [reflexivity|].
    apply elem_of_nil in Hk. destruct Hk. }
  split.
  - exact (proj1 (registerMethods_failure_keeps_stored bareEnv
                    (mkContext pingRegistry false) twoMethods [] "ping" ping []
                    Hnodup Hfree) eq_refl).
  - exact (proj2 (registerMethods_failure_keeps_stored backgroundEnv
                    (mkContext pingRegistry false) twoMethods [("late", pong)]
                    "ping" ping [] Hnodup Hfree)
             (or_introl (ex_intro _ pong eq_refl))).
Defined.

(** ** Registering, then being called *)

(** X15.  Once [registerMethods] has gone through, each of the methods is
    served under its name.  An envelope of that [type] without a target is
    answered by the listener with what that method does with the
    envelope's arguments and [{ trace: [sender] }]; and in the background
    context a call to the page "background" completes exactly as that
    method does with the call's arguments and [{ trace: [] }]. *)
Theorem registered_methods_are_served
    (E : Env) (gcsm : string -> value -> list value -> M completion)
    (ctx : Context) (methods : list (string * Method)) (tr : trace)
    (type : string) (handler : Method) :
  browser_in_globalThis E = true ->
  NoDup methods.*1 ->
  (forall k, k ∈ methods.*1 -> handlers ctx !! k = None) ->
  (type, handler) ∈ methods ->
  exists ctx' tr',
    registerMethods E ctx methods tr = (RetValue VUndefined, ctx', tr')
    /\ (forall message sender tr0,
           isMessengerMessage message = true ->
           truthy (get message "target") = false ->
           as_string (get message "type") = type ->
           fst (onMessageListener E gcsm (handlers ctx') message sender tr0)
           = RetPromise
               (Fulfilled
                  (VObj (<["__webext_messenger__" := VBool true]>
                           (wireBody E
                              (async_call
                                 (handler (VObj {[ "trace" := VArr [sender] ]})
                                    (as_array (get message "args")))))))))
    /\ (isBackground E = true ->
        forall options args tr0,
          fst (messenger E (handlers ctx') type options backgroundTarget args tr0)
          = handler (VObj {[ "trace" := VArr [] ]}) args).
Proof.
  intros Hbrowser Hnodup Hfree Hin.
  exists (mkContext (list_to_map methods ∪ handlers ctx) true),
    (tr ++ registered_log methods).
  rewrite registerMethods_fresh_run, Hbrowser by assumption.
  split; [reflexivity|]. simpl.
  assert ((list_to_map methods ∪ handlers ctx) !! type = Some handler) as Hlookup.
  { apply lookup_union_Some_l. apply elem_of_list_to_map_1; assumption. }
  split.
  - intros message sender tr0 Hm Htarget Htype.
    rewrite (onMessageListener_local_run E gcsm _ message sender tr0 handler);
      [reflexivity | exact Hm | exact Htarget | rewrite Htype; exact Hlookup].
  - intros Hbg options args tr0. unfold messenger. simpl.
    rewrite Hbg, Hlookup. reflexivity.
Qed.

Lemma registered_methods_are_served_witness :
  exists ctx' tr',
    registerMethods backgroundEnv (mkContext ∅ false) twoMethods []
    = (RetValue VUndefined, ctx', tr')
    /\ fst (onMessageListener backgroundEnv (fun _ _ _ => ret (RetValue VNull))
              (handlers ctx') (receiverEnvelope "echo" [VNum 7] ∅) someSender [])
       = RetPromise
           (Fulfilled
              (VObj (<["__webext_messenger__" := VBool true]>
                       {[ "value" := VArr [VNum 7] ]})))
    /\ fst (messenger backgroundEnv (handlers ctx') "echo" emptyOptions
              backgroundTarget [VNum 7] [])
       = RetValue (VArr [VNum 7]).
Proof.
  assert (NoDup twoMethods.*1) as Hnodup.
  { compute_done. }
  assert (forall k, k ∈ twoMethods.*1 ->
                    handlers (mkContext ∅ false) !! k = None) as Hfree.
  { intros k _. reflexivity. }
  assert (("echo", ping) ∈ twoMethods) as Hin.
  { apply list_elem_of_further, list_elem_of_here. }
  destruct (registered_methods_are_served backgroundEnv
              (fun _ _ _ => ret (RetValue VNull)) (mkContext ∅ false) twoMethods []
              "echo" ping eq_refl Hnodup Hfree Hin)
    as (ctx' & tr' & Hrun & Hlistener & Hlocal).
  exists ctx', tr'. split; [exact Hrun|]. split.
  - exact (Hlistener (receiverEnvelope "echo" [VNum 7] ∅) someSender []
             eq_refl eq_refl eq_refl).
  - exact (Hlocal eq_refl emptyOptions [VNum 7] []).
Defined.

(** ** C1: the round trip between the caller and its peer *)






(** ** A context without the browser global *)

(** X16.  In a context without the [browser] global, a call to an object
    target that has no [page] throws a ReferenceError at its caller and
    leaves no trace, whatever the options: nothing is sent, no promise is
    returned, and a notifier throws too. *)
Theorem messenger_needs_browser_global
    (E : Env) (registry : gmap string Method) (type : string)
    (options : Options) (target : value) (args : list value) (tr : trace) :
  in_operator "page" target = inl false ->
  browser_in_globalThis E = false ->
  (exists message,
      messenger E registry type options target args tr
      = (Thrown (VErr (mkError EReferenceError message)), tr))
  /\ (exists message,
         getNotifier E registry type (Some target) args tr
         = (Thrown (VErr (mkError EReferenceError message)), tr)).
Proof.
  intros Hin Hbrowser.
  assert (forall opts,
             messenger E registry type opts target args tr
             = (Thrown (VErr (mkError EReferenceError "browser is not defined")),
                tr)) as Hthrows.
  { intros opts. unfold messenger. rewrite Hin, Hbrowser. reflexivity. }
  split; eexists; [apply Hthrows | apply (Hthrows (mkOptions (Some true)))].
Qed.

Lemma messenger_needs_browser_global_witness :
  exists message,
    messenger bareEnv ∅ "ping" emptyOptions tabTarget [] []
    = (Thrown (VErr (mkError EReferenceError message)), []).
Proof.
  exact (proj1 (messenger_needs_browser_global bareEnv ∅ "ping" emptyOptions
                  tabTarget [] [] eq_refl eq_refl)).
Defined.
